(** * US visa data ingestion: a shallow embedding of the ingestion stage

    The development follows the Python package [us_visa]:
    - [entity/config_entity.py], [entity/artifact_entity.py] and
      [constants/__init__.py]: configuration and artifact records;
    - [data_access/stage_04_data_saver.py]: the CSV and Parquet savers;
    - [data_access/stage_03_data_access_service.py]: the data access service;
    - [components/data_ingestion.py]: the orchestrator [DataIngestion];
    - [configuration/database_connection.py]: the shared MongoDB client.

    Python exceptions are values of [Exception]; a method that may raise
    and that touches the file system is a function [World -> Result A * World],
    so that whatever was written before a raise stays written. *)

From Stdlib Require Import ZArith QArith Qround Lqa List Permutation String Ascii Lia.
From stdpp Require Import gmap strings list fin_maps.

Local Open Scope string_scope.
Local Open Scope list_scope.

(** ** Exceptions *)

(** Modelled from the spec: the module [us_visa/exception] is not part of the
    sources at hand.  Every call site builds [USvisaException(e, sys)] from a
    caught exception [e] or from a message string, and the spec describes one
    error kind "carrying an underlying cause and an origin marker"; the
    constructor [USvisaException] keeps the cause.  The other constructors are
    the built-in Python exceptions the code raises or catches. *)
Inductive Exception : Type :=
  | Message (msg : string)
  | ValueError (msg : string)
  | ImportError (msg : string)
  | FileExistsError (path : string)
  | FileNotFoundError (path : string)
  | IsADirectoryError (path : string)
  | KeyError (msg : string)
  | RuntimeError (msg : string) (cause : Exception)
  | USvisaException (cause : Exception).

Definition Result (A : Type) : Type := (Exception + A)%type.

Definition is_USvisaException {A : Type} (r : Result A) : bool :=
  match r with
  | inl (USvisaException _) => true
  | _ => false
  end.

Definition succeeded {A : Type} (r : Result A) : bool :=
  match r with
  | inr _ => true
  | inl _ => false
  end.

(** ** Tabular record sets *)

(** A cell of a table: whatever the source documents contain. *)
Inductive Value : Type :=
  | VNaN
  | VBool (b : bool)
  | VInt (z : Z)
  | VStr (s : string).

(** A row maps column names to values, in column order. *)
Definition Row : Type := list (string * Value).

(** A pandas [DataFrame] as the ingestion code sees it: its column labels
    and its rows in order.  Row labels (the pandas index) are not kept:
    both savers write with [index=False]. *)
Record DataFrame : Type := mkDataFrame {
  columns : list string;
  rows : list Row
}.

(** [len(df)] *)
Definition len (df : DataFrame) : nat := length (rows df).

(** [df.empty]: true when any axis has length 0. *)
Definition empty (df : DataFrame) : bool :=
  (len df =? 0)%nat || (length (columns df) =? 0)%nat.

Definition mem_label (c : string) (labels : list string) : bool :=
  existsb (String.eqb c) labels.

(** The value of a row in a column: the first entry under that label. *)
Fixpoint cell (r : Row) (c : string) : option Value :=
  match r with
  | [] => None
  | (k, v) :: r' => if String.eqb k c then Some v else cell r' c
  end.

(** The [errors] argument of [DataFrame.drop]. *)
Inductive ErrorsMode : Type := errors_raise | errors_ignore.

Definition without (labels : list string) (df : DataFrame) : DataFrame :=
  {| columns := List.filter (fun c => negb (mem_label c labels)) (columns df);
     rows := List.map
               (List.filter (fun kv : string * Value => negb (mem_label (fst kv) labels)))
               (rows df) |}.

(** [df.drop(columns=labels, errors=...)]: every column whose label is
    listed goes.  A label that names no column raises [KeyError] under
    [errors="raise"] and is skipped silently under [errors="ignore"]. *)
Definition drop (labels : list string) (errors : ErrorsMode) (df : DataFrame)
  : Result DataFrame :=
  match errors, List.find (fun l => negb (mem_label l (columns df))) labels with
  | errors_raise, Some l => inl (KeyError (l ++ " not found in axis"))
  | _, _ => inr (without labels df)
  end.

(** [df.iloc[indices]]: the rows at the given positions, in that order.
    The caller ([train_test_split]) only passes positions below [len df]. *)
Definition iloc (df : DataFrame) (indices : list nat) : DataFrame :=
  {| columns := columns df;
     rows := List.map (fun i => nth i (rows df) []) indices |}.

(** ** Paths: [os.path.join] and [os.path.dirname] for POSIX *)

Definition sep : ascii := "/"%char.

Definition startswith_sep (p : string) : bool :=
  match p with
  | String c _ => Ascii.eqb c sep
  | EmptyString => false
  end.

Fixpoint endswith_sep (p : string) : bool :=
  match p with
  | EmptyString => false
  | String c EmptyString => Ascii.eqb c sep
  | String _ r => endswith_sep r
  end.

(** One step of [posixpath.join]: an absolute component (or an empty
    accumulated path) restarts the path, otherwise the component is
    appended after exactly one separator. *)
Definition join2 (path b : string) : string :=
  if startswith_sep b || String.eqb path "" then b
  else if endswith_sep path then path ++ b
  else path ++ String sep b.

Definition join (a : string) (p : list string) : string :=
  fold_left join2 p a.

(** [p[:p.rfind(sep) + 1]]: the prefix up to and including the last
    separator, empty when there is none. *)
Fixpoint head_upto_sep (p : string) : string :=
  match p with
  | EmptyString => EmptyString
  | String c r =>
      match head_upto_sep r with
      | EmptyString => if Ascii.eqb c sep then String c EmptyString else EmptyString
      | h => String c h
      end
  end.

Fixpoint all_sep (p : string) : bool :=
  match p with
  | EmptyString => true
  | String c r => Ascii.eqb c sep && all_sep r
  end.

(** [head.rstrip(sep)] *)
Fixpoint rstrip_sep (p : string) : string :=
  match p with
  | EmptyString => EmptyString
  | String c r =>
      match rstrip_sep r with
      | EmptyString => if Ascii.eqb c sep then EmptyString else String c EmptyString
      | r' => String c r'
      end
  end.

Definition dirname (p : string) : string :=
  let head := head_upto_sep p in
  if negb (String.eqb head "") && negb (all_sep head) then rstrip_sep head else head.

(** [p[p.rfind(sep) + 1:]] *)
Fixpoint basename (p : string) : string :=
  match p with
  | EmptyString => EmptyString
  | String c r =>
      match head_upto_sep r with
      | EmptyString => if Ascii.eqb c sep then r else p
      | _ => basename r
      end
  end.


(** ** The file system *)

(** What a saved file holds: the record set and the format it was written
    in.  [to_parquet] writes the columnar binary Parquet format, [to_csv]
    writes comma-separated text with a header line. *)
Inductive FileFormat : Type := Parquet | CSV.


Record File : Type := mkFile {
  file_format : FileFormat;
  file_data : DataFrame
}.

(** Directories and regular files, keyed by their path as it is spelled
    (paths are taken to be normalised: no [.] or [..] components and no
    doubled separators).  The working directory (the empty [dirname]) and
    the root always exist. *)
Record FileSystem : Type := mkFileSystem {
  dirs : gset string;
  files : gmap string File
}.

Definition is_root (p : string) : bool :=
  negb (String.eqb p "") && all_sep p.

Definition isfile (fs : FileSystem) (p : string) : bool :=
  bool_decide (is_Some (files fs !! p)).

Definition isdir (fs : FileSystem) (p : string) : bool :=
  is_root p || bool_decide (p ∈ dirs fs).

(** The path itself and every proper ancestor below the root or the
    working directory, innermost first. *)
Fixpoint ancestors (fuel : nat) (p : string) : list string :=
  match fuel with
  | O => []
  | S fuel' =>
      if String.eqb p "" || is_root p then []
      else p :: ancestors fuel' (dirname p)
  end.

(** [os.makedirs(name, exist_ok=True)]: creates [name] and every missing
    intermediate directory; an existing directory is accepted, the empty
    name and a regular file on the way are refused. *)
Definition makedirs (name : string) (fs : FileSystem) : Result FileSystem :=
  if String.eqb name "" then inl (FileNotFoundError name)
  else
    let ds := ancestors (String.length name) name in
    match List.find (isfile fs) ds with
    | Some f => inl (FileExistsError f)
    | None => inr {| dirs := list_to_set ds ∪ dirs fs; files := files fs |}
    end.

(** Opening [file_path] for writing and storing [content] there: the
    parent must be a directory and the path must not be one; an existing
    regular file is truncated and replaced. *)
Definition write_file (file_path : string) (content : File) (fs : FileSystem)
  : Result FileSystem :=
  if String.eqb (basename file_path) "" then inl (IsADirectoryError file_path)
  else if isdir fs file_path then inl (IsADirectoryError file_path)
  else if negb (String.eqb (dirname file_path) "") && negb (isdir fs (dirname file_path))
  then inl (FileNotFoundError file_path)
  else inr {| dirs := dirs fs; files := <[file_path := content]> (files fs) |}.

(** [data.to_parquet(file_path, engine="pyarrow", index=False)] *)
Definition to_parquet (data : DataFrame) (file_path : string) (fs : FileSystem)
  : Result FileSystem :=
  write_file file_path {| file_format := Parquet; file_data := data |} fs.

(** [data.to_csv(file_path, index=False, header=True)] *)
Definition to_csv (data : DataFrame) (file_path : string) (fs : FileSystem)
  : Result FileSystem :=
  write_file file_path {| file_format := CSV; file_data := data |} fs.

Definition empty_fs : FileSystem := {| dirs := ∅; files := ∅ |}.

(** No regular file stands where [name] or one of its ancestors has to be
    a directory. *)
Definition creatable (fs : FileSystem) (name : string) : bool :=
  forallb (fun a => negb (isfile fs a)) (ancestors (String.length name) name).

(** [file_path] names a file, not a directory, and its directory can be
    created where it is missing. *)
Definition writable (fs : FileSystem) (file_path : string) : bool :=
  negb (String.eqb (basename file_path) "")
  && negb (isdir fs file_path)
  && creatable fs (dirname file_path).

(** ** The pseudo-random generator *)

(** numpy's [RandomState]: seeding and [permutation(n)], which returns an
    arrangement of [range(n)] and advances the generator.  The Mersenne
    Twister behind it is not unfolded; what the ingestion code relies on
    is stated as [permutation_range] where it is needed. *)
Class NumpyRandom : Type := {
  RandomState : Type;
  RandomState_seed : Z -> RandomState;
  permutation : RandomState -> nat -> list nat * RandomState
}.

Definition permutation_range `{NumpyRandom} : Prop :=
  forall (g : RandomState) (n : nat), Permutation (fst (permutation g n)) (seq 0 n).

(** A small generator: the state counts the draws, an even state yields
    the reversed range and an odd one the range itself. *)
Definition toy_permutation (g n : nat) : list nat * nat :=
  (if Nat.even g then rev (seq 0 n) else seq 0 n, S g).

Definition ToyRandom : NumpyRandom :=
  {| RandomState := nat;
     RandomState_seed := Z.to_nat;
     permutation := toy_permutation |}.

(** ** Worlds and the monad of methods *)

Section World.
Context `{NumpyRandom}.

(** What a method can read and change: the file system and numpy's
    process-wide generator.  Log records are not kept. *)
Record World : Type := mkWorld {
  fs : FileSystem;
  np_random : RandomState
}.

Definition M (A : Type) : Type := World -> Result A * World.

Definition ret {A : Type} (a : A) : M A := fun w => (inr a, w).

Definition raise {A : Type} (e : Exception) : M A := fun w => (inl e, w).

Definition bind {A B : Type} (m : M A) (k : A -> M B) : M B :=
  fun w =>
    match m w with
    | (inr a, w') => k a w'
    | (inl e, w') => (inl e, w')
    end.

(** [try: body  except Exception as e: handler(e)] *)
Definition try_except {A : Type} (body : M A) (handler : Exception -> M A) : M A :=
  fun w =>
    match body w with
    | (inr a, w') => (inr a, w')
    | (inl e, w') => handler e w'
    end.

(** A file-system call run inside a method. *)
Definition fs_call (op : FileSystem -> Result FileSystem) : M unit :=
  fun w =>
    match op (fs w) with
    | inr fs' => (inr tt, {| fs := fs'; np_random := np_random w |})
    | inl e => (inl e, w)
    end.

Definition lift_result {A : Type} (r : Result A) : M A := fun w => (r, w).

End World.

Declare Scope method_scope.
Delimit Scope method_scope with method.
Notation "'let!' x ':=' m 'in' k" := (bind m (fun x => k))
  (at level 10, x name, m at level 100, k at level 200) : method_scope.
Notation "m ';;;' k" := (bind m (fun _ => k))
  (at level 100, k at level 200, right associativity) : method_scope.
Local Open Scope method_scope.

(** ** Data savers ([stage_04_data_saver.py]) *)

Section Savers.
Context `{NumpyRandom}.

(** [IDataSaver]: anything with a [save(data, file_path)] method. *)
Class IDataSaver : Type := {
  save : DataFrame -> string -> M unit
}.

(** [import pyarrow] at the top of the module binds the name before any
    saver exists, so the guard ["pyarrow" not in globals()] is false. *)
Definition pyarrow_in_globals : bool := true.

Definition CSVDataSaver_save (data : DataFrame) (file_path : string) : M unit :=
  try_except
    (fs_call (makedirs (dirname file_path)) ;;;
     fs_call (to_csv data file_path))
    (fun e => raise (RuntimeError ("Failed to save CSV data to " ++ file_path) e)).

Definition ParquetDataSaver_save (data : DataFrame) (file_path : string) : M unit :=
  try_except
    (if negb pyarrow_in_globals
     then raise (ImportError "pyarrow is required to save Parquet files.")
     else
       let dir_path := dirname file_path in
       (if negb (String.eqb dir_path "")
        then fs_call (makedirs dir_path)
        else ret tt) ;;;
       fs_call (to_parquet data file_path))
    (fun e => raise (RuntimeError ("Failed to save Parquet data to " ++ file_path) e)).

Definition CSVDataSaver : IDataSaver := {| save := CSVDataSaver_save |}.
Definition ParquetDataSaver : IDataSaver := {| save := ParquetDataSaver_save |}.

End Savers.

(** ** [sklearn.model_selection.train_test_split] *)

Section Split.
Context `{NumpyRandom}.

(** [_validate_shuffle_split] for a float [test_size] and no [train_size]:
    the fraction must lie strictly between 0 and 1, the test partition
    takes [ceil(test_size * n_samples)] rows, the train partition the
    rest, and an empty train partition is refused.  A float is read as
    the decimal fraction its literal spells and the product is exact:
    binary64 rounding is not modelled.  The messages are abridged. *)
Definition _validate_shuffle_split (n_samples : nat) (test_size : Q)
  : Result (nat * nat) :=
  if Qle_bool test_size 0 || Qle_bool 1 test_size
  then inl (ValueError "test_size should be a float in the (0, 1) range")
  else
    let n_test := Z.to_nat (Qceiling (test_size * inject_Z (Z.of_nat n_samples))) in
    let n_train := (n_samples - n_test)%nat in
    if (n_train =? 0)%nat
    then inl (ValueError "the resulting train set will be empty")
    else inr (n_train, n_test).

(** [check_random_state(seed)]: an integer seeds a generator of its own,
    [None] hands out the process-wide one. *)
Definition check_random_state (random_state : option Z) (w : World) : RandomState :=
  match random_state with
  | Some seed => RandomState_seed seed
  | None => np_random w
  end.

(** [ShuffleSplit]: one permutation of the row positions; its first
    [n_test] entries are the test rows, the next [n_train] the train rows.
    Only a generator taken from the process ([random_state=None]) is left
    advanced in the world. *)
Definition train_test_split (df : DataFrame) (test_size : Q) (random_state : option Z)
  : M (DataFrame * DataFrame) :=
  let! sizes := lift_result (_validate_shuffle_split (len df) test_size) in
  fun w =>
    let '(n_train, n_test) := sizes in
    let '(perm, rng') := permutation (check_random_state random_state w) (len df) in
    let ind_test := firstn n_test perm in
    let ind_train := firstn n_train (skipn n_test perm) in
    (inr (iloc df ind_train, iloc df ind_test),
     match random_state with
     | Some _ => w
     | None => {| fs := fs w; np_random := rng' |}
     end).

End Split.

(** ** Configuration and artifact ([constants], [config_entity.py], [artifact_entity.py]) *)

Definition PIPELINE_NAME : string := "usvisa".
Definition ARTIFACT_DIR : string := "artifacts".
Definition TRAIN_FILE_NAME : string := "train.parquet".
Definition TEST_FILE_NAME : string := "test.parquet".
Definition FILE_NAME : string := "raw.parquet".
Definition DATA_INGESTION_COLLECTION_NAME : string := "data".
Definition DATA_INGESTION_DIR_NAME : string := "data_ingestion".
Definition DATA_INGESTION_FEATURE_STORE_DIR : string := "feature_store".
Definition DATA_INGESTION_INGESTED_DIR : string := "ingested".
Definition DATA_INGESTION_TRAIN_TEST_SPLIT_RATIO : Q := 2 # 10. (* 0.2 *)

Record TrainingPipelineConfig : Type := mkTrainingPipelineConfig {
  pipeline_name : string;
  artifact_dir : string
}.

(** The module-level instance [TrainingPipelineConfig()]. *)
Definition training_pipeline_config : TrainingPipelineConfig :=
  {| pipeline_name := PIPELINE_NAME; artifact_dir := ARTIFACT_DIR |}.

Record DataIngestionConfig : Type := mkDataIngestionConfig {
  data_ingestion_dir : string;
  feature_store_file_path : string;
  training_file_path : string;
  testing_file_path : string;
  train_test_split_ratio : Q;
  collection_name : string
}.

(** The field defaults, as the class body computes them once from a
    pipeline configuration: each path default is built from the default
    of [data_ingestion_dir]. *)
Definition DataIngestionConfig_defaults (tpc : TrainingPipelineConfig)
  : DataIngestionConfig :=
  let data_ingestion_dir := join (artifact_dir tpc) [DATA_INGESTION_DIR_NAME] in
  {| data_ingestion_dir := data_ingestion_dir;
     feature_store_file_path :=
       join data_ingestion_dir [DATA_INGESTION_FEATURE_STORE_DIR; FILE_NAME];
     training_file_path :=
       join data_ingestion_dir [DATA_INGESTION_INGESTED_DIR; TRAIN_FILE_NAME];
     testing_file_path :=
       join data_ingestion_dir [DATA_INGESTION_INGESTED_DIR; TEST_FILE_NAME];
     train_test_split_ratio := DATA_INGESTION_TRAIN_TEST_SPLIT_RATIO;
     collection_name := DATA_INGESTION_COLLECTION_NAME |}.

(** The constructor the [dataclass] decorator generates: every field is a
    keyword argument that falls back to its default; no argument is
    validated. *)
Definition DataIngestionConfig_init
    (data_ingestion_dir' feature_store_file_path' training_file_path'
       testing_file_path' : option string)
    (train_test_split_ratio' : option Q) (collection_name' : option string)
  : DataIngestionConfig :=
  let d := DataIngestionConfig_defaults training_pipeline_config in
  {| data_ingestion_dir := default (data_ingestion_dir d) data_ingestion_dir';
     feature_store_file_path :=
       default (feature_store_file_path d) feature_store_file_path';
     training_file_path := default (training_file_path d) training_file_path';
     testing_file_path := default (testing_file_path d) testing_file_path';
     train_test_split_ratio :=
       default (train_test_split_ratio d) train_test_split_ratio';
     collection_name := default (collection_name d) collection_name' |}.

(** [DataIngestionConfig()] *)
Definition DataIngestionConfig_new : DataIngestionConfig :=
  DataIngestionConfig_init None None None None None None.

Record DataIngestionArtifact : Type := mkDataIngestionArtifact {
  raw_file_path : string;
  train_file_path : string;
  test_file_path : string
}.

(** ** The schema description ([read_yaml_file(SCHEMA_FILE_PATH)]) *)

(** The YAML values a [drop_columns] entry can hold. *)
Inductive Yaml : Type :=
  | YNull
  | YStr (s : string)
  | YList (l : list string).

(** Python truthiness: [None], the empty string and the empty list are false. *)
Definition truthy (y : Yaml) : bool :=
  match y with
  | YNull => false
  | YStr s => negb (String.eqb s "")
  | YList l => negb (Nat.eqb (length l) 0)
  end.

(** The labels [DataFrame.drop(columns=y)] takes from its argument: a
    single label or a list of labels. *)
Definition labels_of (y : Yaml) : list string :=
  match y with
  | YNull => []
  | YStr s => [s]
  | YList l => l
  end.

(** [d.get(key, default)] *)
Definition dict_get (d : gmap string Yaml) (key : string) (dflt : Yaml) : Yaml :=
  default dflt (d !! key).

(** ** The data access service ([stage_03_data_access_service.py]) *)

Section Ingestion.
Context `{NumpyRandom}.

(** [IDataExtractor] *)
Class IDataExtractor : Type := {
  export_as_dataframe : string -> option string -> M DataFrame
}.

(** Modelled from the spec: the module [stage_02_data_cleaner] is not part
    of the sources at hand; the service calls these three methods of its
    cleaner in this order ("drop the store-generated identifier column",
    "normalize missing-value markers", "drop exact-duplicate rows").  They
    are taken as given. *)
Record DataCleaner : Type := mkDataCleaner {
  remove_mongo_id : DataFrame -> Result DataFrame;
  replace_na_with_nan : DataFrame -> Result DataFrame;
  drop_duplicates : DataFrame -> Result DataFrame
}.

Record DataAccessService : Type := mkDataAccessService {
  extractor : IDataExtractor;
  cleaner : DataCleaner
}.

Definition get_clean_dataframe (self : DataAccessService)
    (collection_name : string) (database_name : option string) : M DataFrame :=
  try_except
    (let! df := @export_as_dataframe (extractor self) collection_name database_name in
     let! df := lift_result (remove_mongo_id (cleaner self) df) in
     let! df := lift_result (replace_na_with_nan (cleaner self) df) in
     let! df := lift_result (drop_duplicates (cleaner self) df) in
     ret df)
    (fun e => raise (USvisaException e)).

(** ** The orchestrator ([components/data_ingestion.py]) *)

(** A [DataIngestion] object after [__init__]: its configuration, the
    injected (or default) service and saver, and the schema mapping read
    from the schema file. *)
Record DataIngestion : Type := mkDataIngestion {
  config : DataIngestionConfig;
  service : DataAccessService;
  saver : IDataSaver;
  _schema_config : gmap string Yaml
}.

Definition export_data_into_feature_store (self : DataIngestion) : M DataFrame :=
  try_except
    (let! df := get_clean_dataframe (service self) (collection_name (config self)) None in
     if empty df
     then raise (USvisaException (Message "Extracted dataframe is empty."))
     else
       @save _ (saver self) df (feature_store_file_path (config self)) ;;;
       ret df)
    (fun e => raise (USvisaException e)).

(** The pruning at the head of [split_data_as_train_test]. *)
Definition prune_columns (self : DataIngestion) (dataframe : DataFrame)
  : Result DataFrame :=
  let drop_columns := dict_get (_schema_config self) "drop_columns" (YList []) in
  if truthy drop_columns
  then drop (labels_of drop_columns) errors_ignore dataframe
  else inr dataframe.

Definition split_data_as_train_test (self : DataIngestion) (dataframe : DataFrame)
  : M unit :=
  try_except
    (let! dataframe := lift_result (prune_columns self dataframe) in
     let! sets := train_test_split dataframe
                    (train_test_split_ratio (config self)) (Some 42%Z) in
     @save _ (saver self) (fst sets) (training_file_path (config self)) ;;;
     @save _ (saver self) (snd sets) (testing_file_path (config self)))
    (fun e => raise (USvisaException e)).

Definition initiate_data_ingestion (self : DataIngestion) : M DataIngestionArtifact :=
  try_except
    (let! df := export_data_into_feature_store self in
     split_data_as_train_test self df ;;;
     ret {| raw_file_path := feature_store_file_path (config self);
            train_file_path := training_file_path (config self);
            test_file_path := testing_file_path (config self) |})
    (fun e => raise (USvisaException e)).

(** A service whose extractor returns a fixed table and whose cleaner
    changes nothing: what the orchestrator sees when the Data Access
    Service hands it [df]. *)
Definition constant_service (df : DataFrame) : DataAccessService :=
  {| extractor := {| export_as_dataframe := fun _ _ => ret df |};
     cleaner := {| remove_mongo_id := inr;
                   replace_na_with_nan := inr;
                   drop_duplicates := inr |} |}.

End Ingestion.

(** ** The database connector ([configuration/database_connection.py]) *)

Module Connector.

(** Modelled from the spec: the class [MongoDBConfig] is imported from
    [config_entity] but its declaration is not part of the sources at
    hand; the connector reads its [uri] and its [default_db] ("a connection
    URI and default database name, supplied via environment/config"). *)
Record MongoDBConfig : Type := mkMongoDBConfig {
  uri : string;
  default_db : string
}.

(** A [pymongo.MongoClient] object: [client_id] tells apart two clients
    built from the same URI. *)
Record MongoClient : Type := mkMongoClient {
  client_id : nat;
  client_uri : string
}.

(** [client[name]] *)
Record Database : Type := mkDatabase {
  db_client : MongoClient;
  db_name : string
}.

(** The driver: which URIs the [MongoClient] constructor accepts; on the
    others it raises. *)
Class Pymongo : Type := {
  accepts : string -> bool
}.

(** A [MongoDBClient] object. *)
Record MongoDBClient : Type := mkMongoDBClient {
  _config : MongoDBConfig;
  _client : option MongoClient
}.

(** The process: the class attribute [MongoDBClient._shared_client], the
    connector objects alive (by address), and every client the driver has
    built so far, oldest first. *)
Record Process : Type := mkProcess {
  _shared_client : option MongoClient;
  objects : gmap nat MongoDBClient;
  established : list MongoClient
}.

Definition start : Process :=
  {| _shared_client := None; objects := ∅; established := [] |}.

Section Methods.
Context `{Pymongo}.

(** [pymongo.MongoClient(uri, tlsCAFile=CA_CERT_PATH)] *)
Definition new_MongoClient (u : string) (p : Process) : Result MongoClient * Process :=
  if accepts u then
    let c := {| client_id := length (established p); client_uri := u |} in
    (inr c, {| _shared_client := _shared_client p;
               objects := objects p;
               established := established p ++ [c] |})
  else (inl (ValueError "invalid URI"), p).

(** [MongoDBClient(config)]: a new object at the next free address. *)
Definition __init__ (config : MongoDBConfig) (p : Process) : nat * Process :=
  let self := fresh (dom (objects p)) in
  (self, {| _shared_client := _shared_client p;
            objects := <[self := {| _config := config; _client := None |}]> (objects p);
            established := established p |}).

Definition set_client (self : nat) (c : option MongoClient) (p : Process) : Process :=
  {| _shared_client := _shared_client p;
     objects := alter (fun o => {| _config := _config o; _client := c |}) self (objects p);
     established := established p |}.

Definition set_shared_client (c : MongoClient) (p : Process) : Process :=
  {| _shared_client := Some c;
     objects := objects p;
     established := established p |}.

Definition connect (self : nat) (o : MongoDBClient) (p : Process) : Result unit * Process :=
  let '(r, p1) :=
    match _shared_client p with
    | None =>
        match new_MongoClient (uri (_config o)) p with
        | (inr c, p') => (inr tt, set_shared_client c p')
        | (inl e, p') => (inl e, p')
        end
    | Some _ => (inr tt, p)
    end in
  match r with
  | inr _ => (inr tt, set_client self (_shared_client p1) p1)
  | inl e => (inl (USvisaException e), p1)
  end.

(** [name or self._config.default_db] *)
Definition name_or_default (name : option string) (o : MongoDBClient) : string :=
  match name with
  | Some n => if String.eqb n "" then default_db (_config o) else n
  | None => default_db (_config o)
  end.

Definition get_database (self : nat) (o : MongoDBClient) (name : option string)
    (p : Process) : Result Database * Process :=
  match _client o with
  | Some c => (inr {| db_client := c; db_name := name_or_default name o |}, p)
  | None =>
      match connect self o p with
      | (inr _, p') =>
          match objects p' !! self with
          | Some {| _client := Some c |} =>
              (inr {| db_client := c; db_name := name_or_default name o |}, p')
          | _ => (inl (Message "'NoneType' object is not subscriptable"), p')
          end
      | (inl e, p') => (inl e, p')
      end
  end.

(** What a program does with connectors, one call after another. *)
Inductive Call : Type :=
  | New (config : MongoDBConfig)
  | Connect (self : nat)
  | GetDatabase (self : nat) (name : option string).

Inductive Outcome : Type :=
  | Created (self : nat)
  | Connected (r : Result unit)
  | Handle (r : Result Database)
  | NoSuchObject.

Definition call (c : Call) (p : Process) : Outcome * Process :=
  match c with
  | New config => let '(self, p') := __init__ config p in (Created self, p')
  | Connect self =>
      match objects p !! self with
      | Some o => let '(r, p') := connect self o p in (Connected r, p')
      | None => (NoSuchObject, p)
      end
  | GetDatabase self name =>
      match objects p !! self with
      | Some o => let '(r, p') := get_database self o name p in (Handle r, p')
      | None => (NoSuchObject, p)
      end
  end.

Fixpoint run (cs : list Call) (p : Process) : list Outcome * Process :=
  match cs with
  | [] => ([], p)
  | c :: cs' =>
      let '(out, p') := call c p in
      let '(outs, p'') := run cs' p' in
      (out :: outs, p'')
  end.

(** The state the process is meant to stay in: the driver has built the
    shared client and nothing else, and no connector object holds a client
    other than the shared one. *)
Definition consistent (p : Process) : Prop :=
  established p = option_list (_shared_client p) /\
  forall self o, objects p !! self = Some o ->
                 _client o = None \/ _client o = _shared_client p.

(** Every handle among the outcomes is a handle on client [c]. *)
Definition handles_on (c : MongoClient) (outs : list Outcome) : Prop :=
  forall d, In (Handle (inr d)) outs -> db_client d = c.

(** Every connector object holds no client or the client [c]. *)
Definition objects_on (c : MongoClient) (p : Process) : Prop :=
  forall self o, objects p !! self = Some o -> _client o = None \/ _client o = Some c.

End Methods.

(** A driver that accepts every URI but the empty one. *)
Definition nonempty_uri : Pymongo := {| accepts := fun u => negb (String.eqb u "") |}.

(** Two connectors with configurations of their own: the first fetches a
    database, the second connects and fetches another one. *)
Definition two_connectors : list Call :=
  [ New {| uri := "mongodb://first"; default_db := "insurance" |};
    New {| uri := "mongodb://second"; default_db := "visa" |} ].

Definition two_connectors_at_work (a b : nat) : list Call :=
  [ GetDatabase a None; Connect b; GetDatabase b (Some "archive"); Connect a ].

End Connector.

(** ** Sample inputs *)

Definition sample_row (n : Z) : Row :=
  [("case_id", VInt n); ("continent", VStr "Asia"); ("case_status", VStr "Certified")].

Definition sample_columns : list string := ["case_id"; "continent"; "case_status"].

Definition no_rows : DataFrame := {| columns := sample_columns; rows := [] |}.

Definition one_row : DataFrame := {| columns := sample_columns; rows := [sample_row 1] |}.

Definition five_rows : DataFrame :=
  {| columns := sample_columns; rows := List.map sample_row [1; 2; 3; 4; 5]%Z |}.

Definition sample_schema : gmap string Yaml :=
  {[ "drop_columns" := YList ["case_id"; "requires_job_training"] ]}.

Definition sample_world : @World ToyRandom :=
  @mkWorld ToyRandom empty_fs 0%nat.

Definition sample_ingestion (cfg : DataIngestionConfig) (df : DataFrame)
  : @DataIngestion ToyRandom :=
  {| config := cfg;
     service := constant_service df;
     saver := ParquetDataSaver;
     _schema_config := sample_schema |}.



Definition world_of (fs0 : FileSystem) : @World ToyRandom := @mkWorld ToyRandom fs0 0%nat.

(** A configuration whose snapshot goes to a place of the caller's choice. *)
Definition relocated_config : DataIngestionConfig :=
  DataIngestionConfig_init None (Some "snapshots/raw.parquet") None None None None.

(** ** The data extractor ([data_access/stage_01_data_extractor.py]) *)

Module Extractor.
Import Connector.

(** A document of a collection: its fields in order. *)
Definition Document : Type := list (string * Value).

(** The server behind the driver: what [list(db[collection_name].find())]
    yields for a database handle, or the error the driver raises. *)
Class MongoServer : Type := {
  find : Database -> string -> Result (list Document)
}.

(** The labels of a frame built from records: every key, in the order of
    its first appearance. *)
Fixpoint add_keys (cols : list string) (d : Document) : list string :=
  match d with
  | [] => cols
  | (k, _) :: d' => add_keys (if mem_label k cols then cols else cols ++ [k]) d'
  end.

Definition keys_of (records : list Document) : list string :=
  fold_left add_keys records [].

(** The row of a record: its value under every label, [NaN] where the
    record has no such field. *)
Definition row_of (cols : list string) (d : Document) : Row :=
  List.map (fun c => (c, default VNaN (cell d c))) cols.

(** [pd.DataFrame(records)] for a list of dicts. *)
Definition DataFrame_of_records (records : list Document) : DataFrame :=
  {| columns := keys_of records;
     rows := List.map (row_of (keys_of records)) records |}.

Section Methods.
Context `{Pymongo} `{MongoServer}.

(** [MongoDataExtractor.export_as_dataframe], for the extractor whose
    [mongo_client] is the connector object [o] at address [self]. *)
Definition export_as_dataframe (self : nat) (o : MongoDBClient)
    (collection_name : string) (database_name : option string) (p : Process)
  : Result DataFrame * Process :=
  match get_database self o database_name p with
  | (inr db, p') =>
      match find db collection_name with
      | inr records => (inr (DataFrame_of_records records), p')
      | inl e => (inl (USvisaException e), p')
      end
  | (inl e, p') => (inl (USvisaException e), p')
  end.

End Methods.

(** A server with one database holding two collections. *)
Definition visa_documents : list Document :=
  [ [("_id", VStr "a1"); ("case_id", VStr "EZYV01"); ("continent", VStr "Asia")];
    [("_id", VStr "a2"); ("case_id", VStr "EZYV02"); ("case_status", VStr "Denied")] ].

Definition sample_server : MongoServer :=
  {| find := fun db collection_name =>
       if String.eqb (db_name db) "insurance"
       then if String.eqb collection_name "data" then inr visa_documents
            else inr []
       else inl (Message "not authorized") |}.

End Extractor.

(** ** The pipeline wrapper ([pipeline/stage_01_data_ingestion_pipe.py]) *)

Section Pipeline.
Context `{NumpyRandom}.

Record DataIngestionOrchestrator : Type := mkDataIngestionOrchestrator {
  ingestion : DataIngestion
}.

Definition execute (self : DataIngestionOrchestrator) : M DataIngestionArtifact :=
  let! artifact := initiate_data_ingestion (ingestion self) in
  ret artifact.

(** A [DataIngestionPipeline] object after [__init__]. *)
Record DataIngestionPipeline : Type := mkDataIngestionPipeline {
  pipeline_config : DataIngestionConfig;
  orchestrator : DataIngestionOrchestrator
}.

Definition run (self : DataIngestionPipeline) : M unit :=
  try_except
    (execute (orchestrator self) ;;; ret tt)
    (fun e => raise (USvisaException e)).

End Pipeline.

(** ** File helpers ([utils/main_utils.py]) *)

Module Utils.

(** What the helpers use of Python and of the libraries they call: the
    objects and classes [isinstance] relates, arrays, file contents, and
    the three pairs of writers and readers.  A writer gives what it has
    written to the open file and the exception it raised, if any. *)
Class Codecs : Type := {
  object : Type;
  None_ : object;
  class_ : Type;
  dict_ : class_;
  isinstance : object -> class_ -> bool;
  ndarray : Type;
  bytes : Type;
  yaml_dump : object -> bytes * option Exception;
  yaml_safe_load : bytes -> Result object;
  pickle_dump : object -> bytes * option Exception;
  pickle_load : bytes -> Result object;
  np_save : ndarray -> bytes * option Exception;
  np_load : bytes -> Result ndarray
}.

Section Helpers.
Context `{Codecs}.

(** The files the helpers read and write, with their contents.  The path
    rules are those of the savers' file system: a disk is looked at
    through [shape], which forgets what the files hold. *)
Record Disk : Type := mkDisk {
  ddirs : gset string;
  dfiles : gmap string bytes
}.

Definition placeholder : File :=
  {| file_format := CSV; file_data := {| columns := []; rows := [] |} |}.

Definition shape (d : Disk) : FileSystem :=
  {| dirs := ddirs d; files := (fun _ => placeholder) <$> dfiles d |}.

Definition U (A : Type) : Type := Disk -> Result A * Disk.

Definition u_ret {A : Type} (a : A) : U A := fun d => (inr a, d).

Definition u_raise {A : Type} (e : Exception) : U A := fun d => (inl e, d).

Definition u_bind {A B : Type} (m : U A) (k : A -> U B) : U B :=
  fun d =>
    match m d with
    | (inr a, d') => k a d'
    | (inl e, d') => (inl e, d')
    end.

(** [try: body  except Exception as e: handler(e)] *)
Definition u_try {A : Type} (body : U A) (handler : Exception -> U A) : U A :=
  fun d =>
    match body d with
    | (inr a, d') => (inr a, d')
    | (inl e, d') => handler e d'
    end.

(** [os.path.exists] *)
Definition exists_ (path : string) (d : Disk) : bool :=
  isfile (shape d) path || isdir (shape d) path.

(** [os.remove]: a regular file goes, anything else is refused. *)
Definition os_remove (path : string) : U unit :=
  fun d =>
    if isdir (shape d) path then (inl (IsADirectoryError path), d)
    else if isfile (shape d) path
    then (inr tt, {| ddirs := ddirs d; dfiles := delete path (dfiles d) |})
    else (inl (FileNotFoundError path), d).

(** [os.makedirs(name, exist_ok=True)] *)
Definition os_makedirs (name : string) : U unit :=
  fun d =>
    match makedirs name (shape d) with
    | inr fs' => (inr tt, {| ddirs := dirs fs'; dfiles := dfiles d |})
    | inl e => (inl e, d)
    end.

(** [with open(file_path, "w") as f: dump(obj, f)]: the file is created
    or truncated, then holds what the writer wrote; an exception of the
    writer comes after that. *)
Definition write_with (dumped : bytes * option Exception) (file_path : string) : U unit :=
  fun d =>
    match write_file file_path placeholder (shape d) with
    | inl e => (inl e, d)
    | inr _ =>
        let d' := {| ddirs := ddirs d;
                     dfiles := <[file_path := fst dumped]> (dfiles d) |} in
        match snd dumped with
        | None => (inr tt, d')
        | Some e => (inl e, d')
        end
    end.

(** [with open(file_path, "r") as f: load(f)] *)
Definition read_with {A : Type} (load : bytes -> Result A) (file_path : string) : U A :=
  fun d =>
    if isdir (shape d) file_path then (inl (IsADirectoryError file_path), d)
    else match dfiles d !! file_path with
         | Some b => (load b, d)
         | None => (inl (FileNotFoundError file_path), d)
         end.

Definition read_yaml_file (file_path : string) : U object :=
  u_try
    (u_bind (read_with yaml_safe_load file_path) (fun content =>
     if negb (isinstance content dict_)
     then u_raise (ValueError ("YAML file " ++ file_path
                               ++ " must contain a mapping at the root."))
     else u_ret content))
    (fun e => u_raise (USvisaException e)).

Definition write_yaml_file (file_path : string) (content : object) (replace : bool)
  : U unit :=
  u_try
    (u_bind (fun d => if replace && exists_ file_path d
                      then os_remove file_path d
                      else u_ret tt d) (fun _ =>
     u_bind (os_makedirs (dirname file_path)) (fun _ =>
     write_with (yaml_dump content) file_path)))
    (fun e => u_raise (USvisaException e)).





End Helpers.

(** Codecs for the examples: objects are numbers, text or mappings from
    names to numbers, a file holds the object or the array written into
    it, and each reader refuses what another writer wrote. *)
Inductive toy_object : Type :=
  | ONone
  | OInt (z : Z)
  | OStr (s : string)
  | ODict (d : list (string * Z)).

Inductive toy_class : Type := CInt | CStr | CDict.

Inductive toy_bytes : Type :=
  | AsYaml (o : toy_object)
  | AsPickle (o : toy_object)
  | AsNpy (a : list Z).

Definition toy_isinstance (o : toy_object) (c : toy_class) : bool :=
  match o, c with
  | OInt _, CInt => true
  | OStr _, CStr => true
  | ODict _, CDict => true
  | _, _ => false
  end.

Definition ToyCodecs : Codecs :=
  {| object := toy_object;
     None_ := ONone;
     class_ := toy_class;
     dict_ := CDict;
     isinstance := toy_isinstance;
     ndarray := list Z;
     bytes := toy_bytes;
     yaml_dump := fun o => (AsYaml o, None);
     yaml_safe_load := fun b =>
       match b with AsYaml o => inr o | _ => inl (ValueError "not YAML") end;
     pickle_dump := fun o => (AsPickle o, None);
     pickle_load := fun b =>
       match b with AsPickle o => inr o | _ => inl (ValueError "not a pickle") end;
     np_save := fun a => (AsNpy a, None);
     np_load := fun b =>
       match b with AsNpy a => inr a | _ => inl (ValueError "not an array") end |}.

Definition empty_disk : @Disk ToyCodecs := @mkDisk ToyCodecs ∅ ∅.

Definition schema_object : toy_object := ODict [("drop_columns", 2%Z)].


End Utils.

(** * Properties *)

Section IngestionFacts.
Context `{NumpyRandom}.

(** C1: when the Data Access Service hands back a record set with zero
    rows, [initiate_data_ingestion] raises [USvisaException] and the world
    is the one the service left: the saver was never called, so neither the
    feature-store file nor the train and test files are written. *)
Theorem empty_result_raises_before_any_write
    (self : DataIngestion) (w w1 : World) (df : DataFrame) :
  get_clean_dataframe (service self) (collection_name (config self)) None w = (inr df, w1) ->
  len df = 0%nat ->
  is_USvisaException (fst (initiate_data_ingestion self w)) = true /\
  snd (initiate_data_ingestion self w) = w1.
Proof.
  intros Hsvc Hlen.
  unfold initiate_data_ingestion, export_data_into_feature_store, try_except, bind.
  rewrite Hsvc.
  unfold empty. rewrite Hlen. simpl. auto.
Qed.

End IngestionFacts.

Lemma empty_result_raises_before_any_write_witness :
  is_USvisaException
    (fst (initiate_data_ingestion (sample_ingestion DataIngestionConfig_new no_rows)
            sample_world)) = true /\
  snd (initiate_data_ingestion (sample_ingestion DataIngestionConfig_new no_rows)
         sample_world) = sample_world.
Proof.
  apply (empty_result_raises_before_any_write
           (sample_ingestion DataIngestionConfig_new no_rows)
           sample_world sample_world no_rows); reflexivity.
Defined.

(** ** Paths *)

Lemma head_basename_length (p : string) :
  (String.length (head_upto_sep p) + String.length (basename p))%nat = String.length p.
Proof.
  induction p as [|c r IH]; simpl; [reflexivity|].
  destruct (head_upto_sep r) as [|c' h] eqn:Hh.
  - simpl in IH. destruct (Ascii.eqb c sep); simpl; lia.
  - simpl in *. lia.
Qed.

Lemma rstrip_sep_length (p : string) :
  (String.length (rstrip_sep p) <= String.length p)%nat.
Proof.
  induction p as [|c r IH]; simpl; [lia|].
  destruct (rstrip_sep r) as [|c' r'].
  - destruct (Ascii.eqb c sep); simpl in *; lia.
  - simpl in *. lia.
Qed.

Lemma dirname_length (p : string) :
  (String.length (dirname p) <= String.length (head_upto_sep p))%nat.
Proof.
  unfold dirname.
  destruct (negb (String.eqb (head_upto_sep p) "") && negb (all_sep (head_upto_sep p)));
    [apply rstrip_sep_length | lia].
Qed.

Lemma dirname_shorter (p : string) :
  basename p <> "" -> (String.length (dirname p) < String.length p)%nat.
Proof.
  intros Hb.
  pose proof (head_basename_length p) as Hsum.
  pose proof (dirname_length p) as Hle.
  destruct (basename p) as [|c b]; [congruence|]. simpl in Hsum. lia.
Qed.

Lemma ancestors_length (fuel : nat) (p x : string) :
  In x (ancestors fuel p) -> (String.length x <= String.length p)%nat.
Proof.
  revert p. induction fuel as [|fuel IH]; intros p; simpl; [tauto|].
  destruct (String.eqb p "" || is_root p); simpl; [tauto|].
  intros [<-|Hin]; [lia|].
  apply IH in Hin.
  pose proof (dirname_length p). pose proof (head_basename_length p). lia.
Qed.

Lemma not_own_ancestor (fuel : nat) (p : string) :
  basename p <> "" -> ~ In p (ancestors fuel (dirname p)).
Proof.
  intros Hb Hin. apply ancestors_length in Hin.
  pose proof (dirname_shorter p Hb). lia.
Qed.

Lemma ancestors_head (p : string) :
  p <> "" -> is_root p = false -> In p (ancestors (String.length p) p).
Proof.
  intros Hp Hr. destruct p as [|c r]; [congruence|].
  cbn [String.length ancestors]. rewrite Hr.
  destruct (String.eqb_spec (String c r) ""); [congruence|]. simpl. auto.
Qed.

(** ** The file system *)

Lemma find_none_creatable (fs0 : FileSystem) (name : string) :
  creatable fs0 name = true ->
  List.find (isfile fs0) (ancestors (String.length name) name) = None.
Proof.
  unfold creatable. generalize (ancestors (String.length name) name) as l.
  induction l as [|a l IH]; simpl; [reflexivity|].
  intros Hall. apply andb_prop in Hall as [Ha Hl].
  destruct (isfile fs0 a); [discriminate|auto].
Qed.

Lemma creatable_find_none (fs0 : FileSystem) (name : string) :
  List.find (isfile fs0) (ancestors (String.length name) name) = None ->
  creatable fs0 name = true.
Proof.
  unfold creatable. generalize (ancestors (String.length name) name) as l.
  induction l as [|a l IH]; cbn [List.find forallb]; [reflexivity|].
  destruct (isfile fs0 a); [discriminate|]. exact IH.
Qed.

Lemma makedirs_inr (name : string) (fs0 fs1 : FileSystem) :
  makedirs name fs0 = inr fs1 ->
  files fs1 = files fs0 /\
  dirs fs1 = list_to_set (ancestors (String.length name) name) ∪ dirs fs0 /\
  (forall d, In d (ancestors (String.length name) name) -> isdir fs1 d = true) /\
  isdir fs1 name = true.
Proof.
  unfold makedirs. destruct (String.eqb_spec name ""); [discriminate|].
  destruct (List.find _ _); [discriminate|].
  intros [= <-]. simpl. repeat split.
  { intros d Hd. unfold isdir. simpl. apply orb_true_intro. right.
    apply bool_decide_eq_true, elem_of_union_l, elem_of_list_to_set, list_elem_of_In, Hd. }
  unfold isdir. simpl. destruct (is_root name) eqn:Hr; [reflexivity|].
  simpl. apply bool_decide_eq_true. apply elem_of_union_l.
  apply elem_of_list_to_set, list_elem_of_In, ancestors_head; auto.
Qed.

Lemma makedirs_creatable (name : string) (fs0 : FileSystem) :
  name <> "" -> creatable fs0 name = true ->
  exists fs1, makedirs name fs0 = inr fs1.
Proof.
  intros Hn Hc. unfold makedirs.
  destruct (String.eqb_spec name ""); [congruence|].
  rewrite (find_none_creatable _ _ Hc). eauto.
Qed.

Lemma isdir_after_makedirs (name file_path : string) (fs0 fs1 : FileSystem) :
  makedirs (dirname file_path) fs0 = inr fs1 ->
  basename file_path <> "" ->
  isdir fs1 file_path = isdir fs0 file_path.
Proof.
  intros Hmk Hb. apply makedirs_inr in Hmk as (_ & Hd & _ & _).
  unfold isdir. rewrite Hd. f_equal.
  apply bool_decide_ext. rewrite elem_of_union, elem_of_list_to_set, list_elem_of_In.
  pose proof (not_own_ancestor (String.length (dirname file_path)) file_path Hb).
  tauto.
Qed.

Lemma write_file_inr (file_path : string) (content : File) (fs0 fs1 : FileSystem) :
  write_file file_path content fs0 = inr fs1 ->
  files fs1 = <[file_path := content]> (files fs0) /\ dirs fs1 = dirs fs0.
Proof.
  unfold write_file.
  repeat match goal with |- context [if ?b then _ else _] => destruct b end;
    try discriminate.
  intros [= <-]. auto.
Qed.

(** ** The savers *)

Section SaverFacts.
Context `{NumpyRandom}.

Lemma fs_call_inr (op : FileSystem -> Result FileSystem) (w w' : World) (u : unit) :
  fs_call op w = (inr u, w') ->
  op (fs w) = inr (fs w') /\ np_random w' = np_random w.
Proof.
  unfold fs_call. destruct (op (fs w)); intros [= <- <-]; auto.
Qed.

Lemma ParquetDataSaver_save_inr (data : DataFrame) (file_path : string) (w w' : World) :
  ParquetDataSaver_save data file_path w = (inr tt, w') ->
  files (fs w') = <[file_path := {| file_format := Parquet; file_data := data |}]> (files (fs w))
  /\ np_random w' = np_random w
  /\ (dirname file_path <> "" -> isdir (fs w') (dirname file_path) = true)
  /\ (forall d, In d (ancestors (String.length (dirname file_path)) (dirname file_path)) ->
      isdir (fs w') d = true).
Proof.
  unfold ParquetDataSaver_save, try_except, bind. simpl.
  destruct (String.eqb_spec (dirname file_path) "") as [He|Hne]; simpl.
  - destruct (fs_call _ w) as [[e|[]] w1] eqn:Hw; [discriminate|].
    intros [= <-]. apply fs_call_inr in Hw as [Hw Hr].
    apply write_file_inr in Hw as [Hf _]. repeat split; auto.
    rewrite He. simpl. tauto.
  - destruct (fs_call (makedirs _) w) as [[e|[]] w1] eqn:Hmk; [discriminate|].
    destruct (fs_call _ w1) as [[e|[]] w2] eqn:Hw; [discriminate|].
    intros [= <-].
    apply fs_call_inr in Hmk as [Hmk Hr1]. apply fs_call_inr in Hw as [Hw Hr2].
    apply makedirs_inr in Hmk as (Hf1 & Hd1 & Hanc & Hdir).
    apply write_file_inr in Hw as [Hf2 Hd2].
    repeat split; [congruence | congruence | |].
    + intros _. unfold isdir in *. rewrite Hd2. exact Hdir.
    + intros d Hd. specialize (Hanc d Hd). unfold isdir in *. rewrite Hd2. exact Hanc.
Qed.


Lemma write_file_writable (file_path : string) (content : File) (fs0 fs1 : FileSystem) :
  writable fs0 file_path = true ->
  (dirname file_path = "" /\ fs1 = fs0 \/ makedirs (dirname file_path) fs0 = inr fs1) ->
  exists fs2, write_file file_path content fs1 = inr fs2.
Proof.
  unfold writable. intros Hw Hfs.
  apply andb_prop in Hw as [Hw _]. apply andb_prop in Hw as [Hb Hd].
  apply negb_true_iff in Hb, Hd.
  unfold write_file. rewrite Hb.
  assert (Hbn : basename file_path <> "") by (apply String.eqb_neq; exact Hb).
  destruct Hfs as [[He ->]|Hmk].
  - rewrite Hd, He. simpl. eauto.
  - rewrite (isdir_after_makedirs file_path _ _ _ Hmk Hbn), Hd.
    apply makedirs_inr in Hmk as (_ & _ & _ & ->).
    rewrite andb_false_r. eauto.
Qed.







End SaverFacts.

Section SaveContract.
Context `{NumpyRandom}.


End SaveContract.



(** The CSV saver has no guard for a bare file name: [os.makedirs("")]
    raises, where the Parquet saver skips the call and writes the file. *)
Example csv_bare_file_name :
  fst (CSVDataSaver_save five_rows "raw.csv" (world_of empty_fs))
  = inl (RuntimeError "Failed to save CSV data to raw.csv" (FileNotFoundError "")) /\
  succeeded (fst (ParquetDataSaver_save five_rows "raw.parquet" (world_of empty_fs))) = true.
Proof. split; vm_compute; reflexivity. Qed.

(** ** Column pruning *)

Lemma mem_label_In (c : string) (labels : list string) :
  mem_label c labels = true <-> In c labels.
Proof.
  unfold mem_label. rewrite existsb_exists. split.
  - intros (x & Hx & Heq). apply String.eqb_eq in Heq. congruence.
  - intros Hin. exists c. split; [exact Hin | apply String.eqb_refl].
Qed.

Lemma mem_label_not_In (c : string) (labels : list string) :
  mem_label c labels = false <-> ~ In c labels.
Proof.
  rewrite <- mem_label_In. destruct (mem_label c labels); split; congruence.
Qed.

Lemma cell_kept (labels : list string) (r : Row) (c : string) :
  ~ In c labels ->
  cell (List.filter (fun kv : string * Value => negb (mem_label (fst kv) labels)) r) c
  = cell r c.
Proof.
  intros Hc. induction r as [|[k v] r IH]; simpl; [reflexivity|].
  destruct (String.eqb_spec k c) as [->|Hne].
  - apply mem_label_not_In in Hc. rewrite Hc. simpl. rewrite String.eqb_refl. reflexivity.
  - destruct (mem_label k labels); simpl; [exact IH|].
    destruct (String.eqb_spec k c); [congruence | exact IH].
Qed.

Lemma cell_dropped (labels : list string) (r : Row) (c : string) :
  In c labels ->
  cell (List.filter (fun kv : string * Value => negb (mem_label (fst kv) labels)) r) c
  = None.
Proof.
  intros Hc. induction r as [|[k v] r IH]; simpl; [reflexivity|].
  destruct (mem_label k labels) eqn:Hk; simpl; [exact IH|].
  destruct (String.eqb_spec k c) as [->|Hne]; [|exact IH].
  apply mem_label_In in Hc. congruence.
Qed.

Lemma without_nothing (df : DataFrame) : without [] df = df.
Proof.
  destruct df as [cs rs]. unfold without. simpl. f_equal.
  - induction cs as [|c cs IH]; simpl; congruence.
  - induction rs as [|r rs IH]; simpl; [reflexivity|]. f_equal; [|exact IH].
    induction r as [|kv r IHr]; simpl; congruence.
Qed.

Lemma without_spec (labels : list string) (df : DataFrame) :
  columns (without labels df)
  = List.filter (fun c => negb (mem_label c labels)) (columns df) /\
  (forall c, In c (columns (without labels df)) <-> In c (columns df) /\ ~ In c labels) /\
  len (without labels df) = len df /\
  (forall i c, ~ In c labels ->
     cell (nth i (rows (without labels df)) []) c = cell (nth i (rows df) []) c) /\
  (forall i c, In c labels -> cell (nth i (rows (without labels df)) []) c = None).
Proof.
  set (keep := fun kv : string * Value => negb (mem_label (fst kv) labels)).
  assert (Hnth : forall i, nth i (rows (without labels df)) [] =
                           List.filter keep (nth i (rows df) [])).
  { intros i. unfold without. cbn [rows].
    change (@nil (string * Value)) with (List.filter keep []) at 1.
    apply map_nth. }
  repeat split.
  - unfold without in H. cbn [columns] in H. apply filter_In in H. tauto.
  - unfold without in H. cbn [columns] in H. apply filter_In in H as [_ Hn].
    apply negb_true_iff, mem_label_not_In in Hn. exact Hn.
  - intros [Hin Hn]. unfold without. cbn [columns]. apply filter_In. split; [exact Hin|].
    apply negb_true_iff, mem_label_not_In. exact Hn.
  - unfold len, without. cbn [rows]. apply length_map.
  - intros i c Hc. rewrite Hnth. apply cell_kept. exact Hc.
  - intros i c Hc. rewrite Hnth. apply cell_dropped. exact Hc.
Qed.

Section Pruning.
Context `{NumpyRandom}.

Lemma prune_columns_list (self : DataIngestion) (df : DataFrame) (l : list string) :
  _schema_config self !! "drop_columns" = Some (YList l) ->
  prune_columns self df = inr (without l df).
Proof.
  intros Hschema.
  unfold prune_columns, dict_get. rewrite Hschema. cbn [default truthy labels_of].
  destruct l as [|c l]; cbn [length Nat.eqb negb].
  - rewrite without_nothing. reflexivity.
  - unfold drop. reflexivity.
Qed.

(** C4: for every record set and every [drop_columns] list of the schema,
    the pruning step completes without error, also when a listed name is
    no column of the data, and removes exactly the listed columns: the
    remaining labels are the unlisted ones in their order, the number of
    rows is unchanged, every cell of an unlisted column keeps its value
    and no cell of a listed column is left. *)
Theorem prune_columns_removes_exactly_listed
    (self : DataIngestion) (df : DataFrame) (l : list string) :
  _schema_config self !! "drop_columns" = Some (YList l) ->
  exists df',
    prune_columns self df = inr df' /\
    columns df' = List.filter (fun c => negb (mem_label c l)) (columns df) /\
    (forall c, In c (columns df') <-> In c (columns df) /\ ~ In c l) /\
    len df' = len df /\
    (forall i c, ~ In c l -> cell (nth i (rows df') []) c = cell (nth i (rows df) []) c) /\
    (forall i c, In c l -> cell (nth i (rows df') []) c = None).
Proof.
  intros Hschema. exists (without l df).
  split; [apply prune_columns_list; exact Hschema | apply without_spec].
Qed.

End Pruning.

Lemma prune_columns_removes_exactly_listed_witness :
  exists df',
    prune_columns (sample_ingestion DataIngestionConfig_new five_rows) five_rows = inr df' /\
    columns df' = ["continent"; "case_status"] /\
    len df' = 5%nat.
Proof.
  destruct (prune_columns_removes_exactly_listed
              (sample_ingestion DataIngestionConfig_new five_rows) five_rows
              ["case_id"; "requires_job_training"])
    as (df' & Hp & Hc & _ & Hl & _); [vm_compute; reflexivity|].
  exists df'. repeat split; [exact Hp | rewrite Hc | rewrite Hl]; reflexivity.
Defined.

(** Under [errors="raise"] the same call fails on the absent name. *)
Example drop_raises_on_absent_label :
  drop ["case_id"; "requires_job_training"] errors_raise five_rows
  = inl (KeyError "requires_job_training not found in axis").
Proof. reflexivity. Qed.

(** ** The split *)

Lemma Qfloor_unique (x : Q) (z : Z) :
  (inject_Z z <= x)%Q -> (x < inject_Z (z + 1))%Q -> Qfloor x = z.
Proof.
  intros Hle Hlt.
  pose proof (Qfloor_le x) as Hfl. pose proof (Qlt_floor x) as Hfu.
  assert (H1 : (inject_Z (Qfloor x) < inject_Z (z + 1))%Q) by (eapply Qle_lt_trans; eauto).
  assert (H2 : (inject_Z z < inject_Z (Qfloor x + 1))%Q) by (eapply Qle_lt_trans; eauto).
  rewrite <- Zlt_Qlt in H1, H2. lia.
Qed.

(** What is left after the test share is the floor of the train share. *)
Lemma rest_is_floor (n : Z) (r : Q) :
  (n - Qceiling (r * inject_Z n))%Z = Qfloor (inject_Z n * (1 - r)).
Proof.
  symmetry. apply Qfloor_unique.
  - pose proof (Qle_ceiling (r * inject_Z n)) as Hc.
    unfold Z.sub. rewrite inject_Z_plus, inject_Z_opp.
    assert (E : (inject_Z n * (1 - r) == inject_Z n - r * inject_Z n)%Q) by ring.
    rewrite E. clear E.
    generalize dependent (r * inject_Z n)%Q. intros m Hc. lra.
  - pose proof (Qceiling_lt (r * inject_Z n)) as Hc.
    replace (n - Qceiling (r * inject_Z n) + 1)%Z
      with (n + - (Qceiling (r * inject_Z n) - 1))%Z by lia.
    rewrite inject_Z_plus, inject_Z_opp.
    assert (E : (inject_Z n * (1 - r) == inject_Z n - r * inject_Z n)%Q) by ring.
    rewrite E. clear E.
    generalize dependent (r * inject_Z n)%Q. intros m Hc. lra.
Qed.

Lemma test_share_bounds (n : Z) (r : Q) :
  (0 <= n)%Z -> (0 < r)%Q -> (r < 1)%Q ->
  (0 <= Qceiling (r * inject_Z n) <= n)%Z.
Proof.
  intros Hn H0 H1.
  assert (Hq : (0 <= inject_Z n)%Q) by (change 0%Q with (inject_Z 0); rewrite <- Zle_Qle; exact Hn).
  split.
  - rewrite <- (Qceiling_Z 0). apply Qceiling_resp_le.
    change (inject_Z 0) with 0%Q.
    apply Qmult_le_0_compat; [apply Qlt_le_weak; exact H0 | exact Hq].
  - rewrite <- (Qceiling_Z n) at 2. apply Qceiling_resp_le.
    assert (E : (inject_Z n == 1 * inject_Z n)%Q) by ring.
    rewrite E at 2. clear E.
    apply Qmult_le_compat_r; [apply Qlt_le_weak; exact H1 | exact Hq].
Qed.

Lemma map_nth_seq {A : Type} (l : list A) (d : A) :
  List.map (fun i => nth i l d) (seq 0 (length l)) = l.
Proof.
  induction l as [|a l IH]; [reflexivity|].
  cbn [length seq List.map nth]. f_equal.
  rewrite <- seq_shift, List.map_map. exact IH.
Qed.

Lemma iloc_len (df : DataFrame) (indices : list nat) :
  len (iloc df indices) = length indices.
Proof. unfold len, iloc. cbn [rows]. apply length_map. Qed.

Lemma iloc_partition (df : DataFrame) (perm : list nat) (k : nat) :
  Permutation perm (seq 0 (len df)) ->
  Permutation (rows (iloc df (skipn k perm)) ++ rows (iloc df (firstn k perm))) (rows df).
Proof.
  intros Hperm. unfold iloc. cbn [rows]. rewrite <- List.map_app.
  assert (E : Permutation (skipn k perm ++ firstn k perm) (seq 0 (len df))).
  { etransitivity; [apply Permutation_app_comm|].
    rewrite firstn_skipn. exact Hperm. }
  apply (Permutation_map (fun i => nth i (rows df) [])) in E.
  unfold len in E. rewrite map_nth_seq in E. exact E.
Qed.

Lemma fraction_below_one (n : nat) (r : Q) :
  (1 <= Qfloor (inject_Z (Z.of_nat n) * (1 - r)))%Z -> (r < 1)%Q.
Proof.
  intros Hfl. apply Qnot_le_lt. intros Hr.
  assert (Hn : (0 <= inject_Z (Z.of_nat n))%Q)
    by (change 0%Q with (inject_Z 0); rewrite <- Zle_Qle; lia).
  assert (Hp : (0 <= inject_Z (Z.of_nat n) * (r - 1))%Q)
    by (apply Qmult_le_0_compat; [exact Hn | lra]).
  assert (Hx : (inject_Z (Z.of_nat n) * (1 - r) <= inject_Z 0)%Q).
  { assert (E : (inject_Z (Z.of_nat n) * (1 - r) == - (inject_Z (Z.of_nat n) * (r - 1)))%Q)
      by ring.
    rewrite E. change (inject_Z 0) with 0%Q. lra. }
  apply Qfloor_resp_le in Hx. rewrite Qfloor_Z in Hx. lia.
Qed.

Lemma validate_shuffle_split_inr (n : nat) (r : Q) :
  (0 < r)%Q ->
  (1 <= Qfloor (inject_Z (Z.of_nat n) * (1 - r)))%Z ->
  exists n_train n_test,
    _validate_shuffle_split n r = inr (n_train, n_test) /\
    Z.of_nat n_train = Qfloor (inject_Z (Z.of_nat n) * (1 - r)) /\
    (n_train + n_test)%nat = n.
Proof.
  intros H0 Hfl. pose proof (fraction_below_one n r Hfl) as H1.
  pose proof (test_share_bounds (Z.of_nat n) r ltac:(lia) H0 H1) as Hb.
  pose proof (rest_is_floor (Z.of_nat n) r) as Hrest.
  unfold _validate_shuffle_split.
  assert (Ha : Qle_bool r 0 = false).
  { destruct (Qle_bool r 0) eqn:E; [|reflexivity]. apply Qle_bool_iff in E. lra. }
  assert (Hb' : Qle_bool 1 r = false).
  { destruct (Qle_bool 1 r) eqn:E; [|reflexivity]. apply Qle_bool_iff in E. lra. }
  rewrite Ha, Hb'. cbn [orb].
  set (c := Qceiling (r * inject_Z (Z.of_nat n))) in *.
  destruct (Nat.eqb_spec (n - Z.to_nat c) 0) as [E|E]; [lia|].
  exists (n - Z.to_nat c)%nat, (Z.to_nat c). repeat split; lia.
Qed.

Section SplitFacts.
Context `{NumpyRandom}.

Lemma train_test_split_run (df : DataFrame) (r : Q) (random_state : option Z)
    (w : World) (n_train n_test : nat) :
  _validate_shuffle_split (len df) r = inr (n_train, n_test) ->
  let perm := fst (permutation (check_random_state random_state w) (len df)) in
  exists w',
    train_test_split df r random_state w
    = (inr (iloc df (firstn n_train (skipn n_test perm)), iloc df (firstn n_test perm)), w')
    /\ fs w' = fs w.
Proof.
  intros Hv perm. unfold train_test_split, bind, lift_result. rewrite Hv.
  subst perm. destruct (permutation _ _) as [p g]. cbn [fst].
  destruct random_state; eexists; split; reflexivity.
Qed.

(** With an integer seed the outcome does not depend on the world. *)
Lemma train_test_split_seeded (df : DataFrame) (r : Q) (seed : Z) (w1 w2 : World) :
  fst (train_test_split df r (Some seed) w1) = fst (train_test_split df r (Some seed) w2) /\
  snd (train_test_split df r (Some seed) w1) = w1.
Proof.
  unfold train_test_split, bind, lift_result.
  destruct (_validate_shuffle_split (len df) r) as [e|[n_train n_test]];
    [split; reflexivity|].
  cbn [check_random_state]. destruct (permutation _ _) as [p g]. split; reflexivity.
Qed.


End SplitFacts.

Lemma toy_permutation_range : @permutation_range ToyRandom.
Proof.
  intros g n. cbn. unfold toy_permutation. cbn [fst].
  destruct (Nat.even g); [symmetry; apply Permutation_rev | reflexivity].
Qed.



(** ** The orchestrator *)

Section OrchestratorFacts.
Context `{NumpyRandom}.

(** A split step that returns normally pruned, split with seed 42 and
    saved the train partition, then the test partition. *)
Lemma split_data_as_train_test_inr (self : DataIngestion) (df : DataFrame) (w w' : World) :
  split_data_as_train_test self df w = (inr tt, w') ->
  exists pruned train test w1,
    prune_columns self df = inr pruned /\
    train_test_split pruned (train_test_split_ratio (config self)) (Some 42%Z) w
    = (inr (train, test), w) /\
    @save _ (saver self) train (training_file_path (config self)) w = (inr tt, w1) /\
    @save _ (saver self) test (testing_file_path (config self)) w1 = (inr tt, w').
Proof.
  unfold split_data_as_train_test, try_except. unfold bind at 1. unfold lift_result.
  destruct (prune_columns self df) as [e|pruned]; [discriminate|].
  unfold bind at 1.
  destruct (train_test_split pruned _ _ w) as [[e|[train test]] w0] eqn:Ht; [discriminate|].
  pose proof (train_test_split_seeded pruned (train_test_split_ratio (config self))
                42%Z w w) as [_ Hw].
  rewrite Ht in Hw. cbn [snd] in Hw. subst w0.
  unfold bind. cbn [fst snd].
  destruct (save train (training_file_path _) w) as [[e|[]] w1] eqn:Hs1; [discriminate|].
  destruct (save test (testing_file_path _) w1) as [[e|[]] w2] eqn:Hs2; [discriminate|].
  intros [= <-]. exists pruned, train, test, w1. repeat split; assumption.
Qed.

(** C3: the split is deterministic.  With the fixed seed the partitions do
    not depend on the world the split runs in, and any two runs of the
    split step on the same record set that return normally, from whatever
    worlds (the second may start where the first ended), leave the same
    train file and the same test file. *)
Theorem split_is_deterministic (self : DataIngestion) (df : DataFrame) (w1 w2 : World) :
  (forall d,
     fst (train_test_split d (train_test_split_ratio (config self)) (Some 42%Z) w1)
     = fst (train_test_split d (train_test_split_ratio (config self)) (Some 42%Z) w2)) /\
  (forall w1' w2',
     saver self = ParquetDataSaver ->
     split_data_as_train_test self df w1 = (inr tt, w1') ->
     split_data_as_train_test self df w2 = (inr tt, w2') ->
     files (fs w1') !! training_file_path (config self)
     = files (fs w2') !! training_file_path (config self) /\
     files (fs w1') !! testing_file_path (config self)
     = files (fs w2') !! testing_file_path (config self) /\
     is_Some (files (fs w1') !! training_file_path (config self)) /\
     is_Some (files (fs w1') !! testing_file_path (config self))).
Proof.
  split.
  - intros d. apply train_test_split_seeded.
  - intros w1' w2' Hsaver Hrun1 Hrun2.
    apply split_data_as_train_test_inr in Hrun1
      as (pruned & train & test & wa & Hp & Ht & Hsa & Hsb).
    apply split_data_as_train_test_inr in Hrun2
      as (pruned' & train' & test' & wb & Hp' & Ht' & Hsa' & Hsb').
    assert (pruned' = pruned) as -> by congruence.
    assert (Heq : (train', test') = (train, test)).
    { pose proof (train_test_split_seeded pruned
                    (train_test_split_ratio (config self)) 42%Z w1 w2) as [E _].
      rewrite Ht, Ht' in E. cbn [fst] in E. congruence. }
    injection Heq as -> ->.
    rewrite Hsaver in *. cbn [save] in *.
    apply ParquetDataSaver_save_inr in Hsa as (Hfa & _).
    apply ParquetDataSaver_save_inr in Hsb as (Hfb & _).
    apply ParquetDataSaver_save_inr in Hsa' as (Hfa' & _).
    apply ParquetDataSaver_save_inr in Hsb' as (Hfb' & _).
    rewrite Hfb, Hfb', Hfa, Hfa'.
    rewrite !lookup_insert_eq.
    destruct (decide (testing_file_path (config self) = training_file_path (config self)))
      as [E|E].
    + rewrite E, !lookup_insert_eq. eauto.
    + rewrite !(lookup_insert_ne _ _ _ _ E), !lookup_insert_eq. eauto.
Qed.

End OrchestratorFacts.

(** Without the seed the toy generator gives another arrangement on the
    next call: the fixed seed is what makes the split repeatable. *)
Example unseeded_split_is_not_repeatable :
  let r := DATA_INGESTION_TRAIN_TEST_SPLIT_RATIO in
  let first := train_test_split five_rows r None sample_world in
  fst (train_test_split five_rows r None (snd first)) <> fst first.
Proof. vm_compute. discriminate. Qed.

Lemma split_is_deterministic_witness :
  let self := sample_ingestion DataIngestionConfig_new five_rows in
  let w1' := snd (split_data_as_train_test self five_rows sample_world) in
  let w2' := snd (split_data_as_train_test self five_rows w1') in
  files (fs w1') !! training_file_path (config self)
  = files (fs w2') !! training_file_path (config self) /\
  files (fs w1') !! testing_file_path (config self)
  = files (fs w2') !! testing_file_path (config self) /\
  is_Some (files (fs w1') !! training_file_path (config self)) /\
  is_Some (files (fs w1') !! testing_file_path (config self)).
Proof.
  intros self w1' w2'.
  destruct (split_is_deterministic self five_rows sample_world w1') as [_ Hd].
  apply (Hd w1' w2').
  - reflexivity.
  - vm_compute. reflexivity.
  - vm_compute. reflexivity.
Defined.

(** ** Runs of the orchestrator *)

Lemma validate_one_row (r : Q) :
  exists e, _validate_shuffle_split 1 r = inl e.
Proof.
  unfold _validate_shuffle_split.
  destruct (Qle_bool r 0) eqn:Ha; [cbn; eauto|].
  destruct (Qle_bool 1 r) eqn:Hb; [cbn; eauto|]. cbn [orb].
  assert (H0 : (0 < r)%Q).
  { apply Qnot_le_lt. intros Hle. apply Qle_bool_iff in Hle. congruence. }
  assert (H1 : (r < 1)%Q).
  { apply Qnot_le_lt. intros Hle. apply Qle_bool_iff in Hle. congruence. }
  pose proof (test_share_bounds 1 r ltac:(lia) H0 H1) as Hb'.
  pose proof (Qle_ceiling (r * inject_Z 1)) as Hc.
  change (Z.of_nat 1) with 1%Z.
  set (c := Qceiling (r * inject_Z 1)) in *.
  assert (Hpos : (inject_Z 0 < inject_Z c)%Q).
  { eapply Qlt_le_trans; [|exact Hc]. change (inject_Z 0) with 0%Q.
    change (inject_Z 1) with 1%Q. lra. }
  rewrite <- Zlt_Qlt in Hpos.
  replace c with 1%Z by lia. cbn. eauto.
Qed.

Section Runs.
Context `{NumpyRandom}.

Lemma prune_columns_total (self : DataIngestion) (df : DataFrame) :
  exists pruned, prune_columns self df = inr pruned /\ len pruned = len df.
Proof.
  unfold prune_columns. destruct (truthy _).
  - unfold drop. eexists. split; [reflexivity|]. apply without_spec.
  - eauto.
Qed.

(** Whatever its outcome, a Parquet save changes no file but its own. *)
Lemma ParquetDataSaver_save_frame (data : DataFrame) (file_path q : string) (w : World) :
  q <> file_path ->
  files (fs (snd (ParquetDataSaver_save data file_path w))) !! q = files (fs w) !! q.
Proof.
  intros Hq.
  destruct (ParquetDataSaver_save data file_path w) as [[e|[]] w'] eqn:Hs.
  - revert Hs. unfold ParquetDataSaver_save, try_except, bind, raise, ret, fs_call.
    cbn [pyarrow_in_globals negb].
    destruct (negb (String.eqb (dirname file_path) "")).
    + destruct (makedirs _ (fs w)) as [e1|fs1] eqn:Hmk.
      * intros [= _ <-]. reflexivity.
      * cbn [fs]. apply makedirs_inr in Hmk as (Hf & _).
        destruct (to_parquet data file_path fs1) as [e2|fs2]; [|discriminate].
        intros [= _ <-]. cbn [snd fs]. congruence.
    + destruct (to_parquet data file_path (fs w)); [|discriminate].
      intros [= _ <-]. reflexivity.
  - apply ParquetDataSaver_save_inr in Hs as (Hf & _).
    cbn [snd]. rewrite Hf. apply lookup_insert_ne. congruence.
Qed.

(** The split step writes to the train and test paths only. *)
Lemma split_data_as_train_test_frame (self : DataIngestion) (df : DataFrame)
    (w : World) (q : string) :
  saver self = ParquetDataSaver ->
  q <> training_file_path (config self) ->
  q <> testing_file_path (config self) ->
  files (fs (snd (split_data_as_train_test self df w))) !! q = files (fs w) !! q.
Proof.
  intros Hsaver Hq1 Hq2.
  unfold split_data_as_train_test, try_except. unfold bind at 1. unfold lift_result.
  destruct (prune_columns self df) as [e|pruned]; [reflexivity|].
  unfold bind at 1.
  pose proof (train_test_split_seeded pruned (train_test_split_ratio (config self))
                42%Z w w) as [_ Hw].
  destruct (train_test_split pruned _ _ w) as [[e|[train test]] w0];
    cbn [snd] in Hw; subst w0; [reflexivity|].
  unfold bind. rewrite Hsaver. unfold ParquetDataSaver. cbn [save fst snd].
  pose proof (ParquetDataSaver_save_frame train (training_file_path (config self)) q w Hq1)
    as Hf1.
  destruct (ParquetDataSaver_save train _ w) as [[e|[]] w1]; cbn [snd] in *; [exact Hf1|].
  pose proof (ParquetDataSaver_save_frame test (testing_file_path (config self)) q w1 Hq2)
    as Hf2.
  destruct (ParquetDataSaver_save test _ w1) as [[e|[]] w2]; cbn [snd raise] in *;
    unfold raise; cbn [snd]; congruence.
Qed.

(** Once the snapshot is saved, the run is the split step followed by the
    construction of the artifact. *)
Lemma initiate_after_snapshot (self : DataIngestion) (w w1 w2 : World) (df : DataFrame) :
  get_clean_dataframe (service self) (collection_name (config self)) None w = (inr df, w1) ->
  empty df = false ->
  @save _ (saver self) df (feature_store_file_path (config self)) w1 = (inr tt, w2) ->
  initiate_data_ingestion self w
  = match split_data_as_train_test self df w2 with
    | (inr _, w3) =>
        (inr {| raw_file_path := feature_store_file_path (config self);
                train_file_path := training_file_path (config self);
                test_file_path := testing_file_path (config self) |}, w3)
    | (inl e, w3) => (inl (USvisaException e), w3)
    end.
Proof.
  intros Hsvc Hne Hsave.
  unfold initiate_data_ingestion, export_data_into_feature_store, try_except, bind, ret, raise.
  rewrite Hsvc, Hne, Hsave.
  destruct (split_data_as_train_test self df w2) as [[e|[]] w3]; reflexivity.
Qed.

(** A run that returns an artifact went through the service, the snapshot
    save and a split step that returned normally. *)
Lemma initiate_inr (self : DataIngestion) (w w' : World) (art : DataIngestionArtifact) :
  initiate_data_ingestion self w = (inr art, w') ->
  exists df w1 w2,
    get_clean_dataframe (service self) (collection_name (config self)) None w = (inr df, w1) /\
    empty df = false /\
    @save _ (saver self) df (feature_store_file_path (config self)) w1 = (inr tt, w2) /\
    split_data_as_train_test self df w2 = (inr tt, w') /\
    art = {| raw_file_path := feature_store_file_path (config self);
             train_file_path := training_file_path (config self);
             test_file_path := testing_file_path (config self) |}.
Proof.
  unfold initiate_data_ingestion, export_data_into_feature_store, try_except, bind, ret, raise.
  destruct (get_clean_dataframe _ _ _ w) as [[e|df] w1]; [discriminate|].
  destruct (empty df) eqn:Hne; [discriminate|].
  destruct (save df _ w1) as [[e|[]] w2] eqn:Hs; [discriminate|].
  destruct (split_data_as_train_test self df w2) as [[e|[]] w3] eqn:Hsp; [discriminate|].
  intros [= <- <-]. exists df, w1, w2. repeat split; auto.
Qed.

End Runs.

Section RunTheorems.
Context `{NumpyRandom}.

(** C10: a cleaned record set of exactly one row is not empty, yet
    [initiate_data_ingestion] raises [USvisaException] on it, under the
    default fraction 0.2 as under any other, because no row would be left
    for the train partition.  It does so after the snapshot was saved: the
    world it leaves is the world right after that one save, with the
    feature-store file holding the record set and no other file touched. *)
Theorem one_row_fails_after_snapshot
    (self : DataIngestion) (w w1 w2 : World) (df : DataFrame) :
  saver self = ParquetDataSaver ->
  get_clean_dataframe (service self) (collection_name (config self)) None w = (inr df, w1) ->
  len df = 1%nat ->
  columns df <> [] ->
  ParquetDataSaver_save df (feature_store_file_path (config self)) w1 = (inr tt, w2) ->
  is_USvisaException (fst (initiate_data_ingestion self w)) = true /\
  snd (initiate_data_ingestion self w) = w2 /\
  files (fs w2) !! feature_store_file_path (config self)
  = Some {| file_format := Parquet; file_data := df |} /\
  (forall q, q <> feature_store_file_path (config self) ->
             files (fs w2) !! q = files (fs w1) !! q).
Proof.
  intros Hsaver Hsvc Hlen Hcols Hsave.
  assert (Hne : empty df = false).
  { unfold empty. rewrite Hlen. destruct (columns df); [congruence|reflexivity]. }
  assert (Hsave' : @save _ (saver self) df (feature_store_file_path (config self)) w1
                   = (inr tt, w2)) by (rewrite Hsaver; exact Hsave).
  rewrite (initiate_after_snapshot self w w1 w2 df Hsvc Hne Hsave').
  assert (Hsplit : exists e, split_data_as_train_test self df w2 = (inl e, w2)).
  { unfold split_data_as_train_test, try_except. unfold bind at 1. unfold lift_result.
    destruct (prune_columns_total self df) as (pruned & -> & Hl).
    unfold train_test_split. unfold bind, lift_result. rewrite Hl, Hlen.
    destruct (validate_one_row (train_test_split_ratio (config self))) as [e ->].
    unfold raise. eauto. }
  destruct Hsplit as [e ->]. cbn [fst snd is_USvisaException].
  apply ParquetDataSaver_save_inr in Hsave as (Hf & _).
  repeat split.
  - rewrite Hf. apply lookup_insert_eq.
  - intros q Hq. rewrite Hf. apply lookup_insert_ne. congruence.
Qed.

(** C5: the snapshot is taken before the pruning.  In every run that gets
    as far as saving the snapshot, what [export_data_into_feature_store]
    saves to the feature-store path and returns is the full cleaned record
    set, with the columns the schema lists for dropping.  With the Parquet
    saver the file holds that record set right after the save, and still
    at the end of the run, whether the split then succeeds or not, unless
    the configuration makes a split file share its path; pruning shows
    only in the split files: when the run returns its artifact, the train
    and test files hold the two partitions of the pruned record set. *)
Theorem snapshot_is_saved_before_pruning
    (self : DataIngestion) (w w1 w2 : World) (df : DataFrame) :
  get_clean_dataframe (service self) (collection_name (config self)) None w = (inr df, w1) ->
  empty df = false ->
  @save _ (saver self) df (feature_store_file_path (config self)) w1 = (inr tt, w2) ->
  export_data_into_feature_store self w = (inr df, w2) /\
  (saver self = ParquetDataSaver ->
   let out := initiate_data_ingestion self w in
   files (fs w2) !! feature_store_file_path (config self)
   = Some {| file_format := Parquet; file_data := df |} /\
   (feature_store_file_path (config self) <> training_file_path (config self) ->
    feature_store_file_path (config self) <> testing_file_path (config self) ->
    files (fs (snd out)) !! feature_store_file_path (config self)
    = Some {| file_format := Parquet; file_data := df |}) /\
   (succeeded (fst out) = true ->
    exists pruned train test,
      prune_columns self df = inr pruned /\
      train_test_split pruned (train_test_split_ratio (config self)) (Some 42%Z) w2
      = (inr (train, test), w2) /\
      columns train = columns pruned /\ columns test = columns pruned /\
      (forall l, _schema_config self !! "drop_columns" = Some (YList l) ->
         columns pruned = List.filter (fun c => negb (mem_label c l)) (columns df)) /\
      files (fs (snd out)) !! testing_file_path (config self)
      = Some {| file_format := Parquet; file_data := test |} /\
      (training_file_path (config self) <> testing_file_path (config self) ->
       files (fs (snd out)) !! training_file_path (config self)
       = Some {| file_format := Parquet; file_data := train |}))).
Proof.
  intros Hsvc Hne Hsave. split.
  { unfold export_data_into_feature_store, try_except, bind, ret.
    rewrite Hsvc, Hne, Hsave. reflexivity. }
  intros Hsaver out.
  subst out. rewrite (initiate_after_snapshot self w w1 w2 df Hsvc Hne Hsave).
  pose proof (split_data_as_train_test_frame self df w2
                (feature_store_file_path (config self)) Hsaver) as Hframe.
  rewrite Hsaver in Hsave. unfold ParquetDataSaver in Hsave. cbn [save] in Hsave.
  apply ParquetDataSaver_save_inr in Hsave as (Hf & _).
  split; [rewrite Hf; apply lookup_insert_eq|].
  destruct (split_data_as_train_test self df w2) as [[e|[]] w3] eqn:Hsplit;
    cbn [fst snd succeeded] in *.
  - split; [|discriminate]. intros Hd1 Hd2.
    rewrite Hframe, Hf by assumption. apply lookup_insert_eq.
  - split; [intros Hd1 Hd2; rewrite Hframe, Hf by assumption; apply lookup_insert_eq|].
    intros _.
    apply split_data_as_train_test_inr in Hsplit
      as (pruned & train & test & wa & Hp & Ht & Hsa & Hsb).
    exists pruned, train, test.
    assert (Hcols : columns train = columns pruned /\ columns test = columns pruned).
    { revert Ht. unfold train_test_split, bind, lift_result.
      destruct (_validate_shuffle_split _ _) as [e|[n_train n_test]]; [discriminate|].
      destruct (permutation _ _) as [perm g]. intros [= <- <-]. split; reflexivity. }
    destruct Hcols as [Hc1 Hc2].
    rewrite Hsaver in Hsa, Hsb. unfold ParquetDataSaver in Hsa, Hsb. cbn [save] in Hsa, Hsb.
    apply ParquetDataSaver_save_inr in Hsa as (Hfa & _).
    apply ParquetDataSaver_save_inr in Hsb as (Hfb & _).
    repeat split; try assumption.
    + intros l Hl. rewrite (prune_columns_list self df l Hl) in Hp.
      injection Hp as <-. reflexivity.
    + rewrite Hfb. apply lookup_insert_eq.
    + intros Hd3. rewrite Hfb, lookup_insert_ne, Hfa by congruence. apply lookup_insert_eq.
Qed.

End RunTheorems.

Lemma one_row_fails_after_snapshot_witness :
  let self := sample_ingestion DataIngestionConfig_new one_row in
  let out := initiate_data_ingestion self sample_world in
  is_USvisaException (fst out) = true /\
  files (fs (snd out)) !! "artifacts/data_ingestion/feature_store/raw.parquet"
  = Some {| file_format := Parquet; file_data := one_row |} /\
  files (fs (snd out)) !! "artifacts/data_ingestion/ingested/train.parquet" = None /\
  files (fs (snd out)) !! "artifacts/data_ingestion/ingested/test.parquet" = None.
Proof.
  intros self out.
  destruct (one_row_fails_after_snapshot self sample_world sample_world
              (snd (ParquetDataSaver_save one_row
                      (feature_store_file_path (config self)) sample_world))
              one_row)
    as (Hexn & Hw & Hfile & Hframe);
    [reflexivity | reflexivity | reflexivity | discriminate | vm_compute; reflexivity |].
  subst out. rewrite Hw. split; [exact Hexn|]. split; [exact Hfile|].
  split; (rewrite Hframe; [reflexivity | vm_compute; discriminate]).
Defined.

Lemma snapshot_is_saved_before_pruning_witness :
  let self := sample_ingestion DataIngestionConfig_new five_rows in
  let out := initiate_data_ingestion self sample_world in
  files (fs (snd out)) !! "artifacts/data_ingestion/feature_store/raw.parquet"
  = Some {| file_format := Parquet; file_data := five_rows |} /\
  exists train test,
    columns train = ["continent"; "case_status"] /\
    columns test = ["continent"; "case_status"] /\
    files (fs (snd out)) !! "artifacts/data_ingestion/ingested/train.parquet"
    = Some {| file_format := Parquet; file_data := train |} /\
    files (fs (snd out)) !! "artifacts/data_ingestion/ingested/test.parquet"
    = Some {| file_format := Parquet; file_data := test |}.
Proof.
  intros self out.
  destruct (snapshot_is_saved_before_pruning self sample_world sample_world
              (snd (ParquetDataSaver_save five_rows
                      (feature_store_file_path (config self)) sample_world))
              five_rows)
    as (_ & Hparquet);
    [reflexivity | reflexivity | vm_compute; reflexivity |].
  destruct (Hparquet eq_refl) as (_ & Hsnap & Hsplit).
  split; [apply Hsnap; vm_compute; discriminate|].
  destruct Hsplit as (pruned & train & test & _ & _ & Hc1 & Hc2 & Hcols & Hf2 & Hf1);
    [vm_compute; reflexivity|].
  exists train, test.
  rewrite Hc1, Hc2, (Hcols ["case_id"; "requires_job_training"]) by (vm_compute; reflexivity).
  repeat split; [exact (Hf1 ltac:(vm_compute; discriminate)) | exact Hf2].
Defined.

(** ** The artifact layout *)

Local Ltac unfold_append := unfold String.append; fold String.append.

Lemma append_assoc (a b c : string) : ((a ++ b) ++ c)%string = (a ++ b ++ c)%string.
Proof.
  induction a as [|x a IH]; [reflexivity|].
  unfold_append. f_equal. exact IH.
Qed.

Lemma append_nonempty (a b : string) : b <> "" -> String.eqb (a ++ b) "" = false.
Proof.
  intros Hb. apply String.eqb_neq. destruct a; unfold_append; [exact Hb | discriminate].
Qed.

Lemma endswith_sep_append (a b : string) :
  b <> "" -> endswith_sep (a ++ b) = endswith_sep b.
Proof.
  intros Hb. induction a as [|x a IH]; [reflexivity|].
  unfold_append. cbn [endswith_sep].
  destruct (a ++ b)%string eqn:E; [|exact IH].
  destruct a; unfold String.append in E; [congruence | discriminate].
Qed.

Lemma join2_plain (a b : string) :
  a <> "" -> endswith_sep a = false -> startswith_sep b = false ->
  join2 a b = (a ++ String sep b)%string.
Proof.
  intros Ha He Hs. unfold join2. rewrite Hs, He.
  apply String.eqb_neq in Ha. rewrite Ha. reflexivity.
Qed.

(** A path of three plain components below a plain directory. *)
Lemma join_three (a d f n : string) :
  a <> "" -> endswith_sep a = false ->
  startswith_sep d = false -> startswith_sep f = false -> startswith_sep n = false ->
  endswith_sep (String sep d) = false -> endswith_sep (String sep f) = false ->
  join (join a [d]) [f; n]
  = (a ++ String sep d ++ String sep f ++ String sep n)%string.
Proof.
  intros Ha He Hd Hf Hn Hed Hef. unfold join. cbn [fold_left].
  rewrite (join2_plain a d Ha He Hd).
  rewrite (join2_plain (a ++ String sep d) f); auto.
  - rewrite (join2_plain _ n); auto.
    + rewrite !append_assoc. reflexivity.
    + apply String.eqb_neq, append_nonempty. discriminate.
    + rewrite endswith_sep_append by discriminate. exact Hef.
  - apply String.eqb_neq, append_nonempty. discriminate.
  - rewrite endswith_sep_append by discriminate. exact Hed.
Qed.

Lemma defaults_layout (tpc : TrainingPipelineConfig) :
  artifact_dir tpc <> "" -> endswith_sep (artifact_dir tpc) = false ->
  feature_store_file_path (DataIngestionConfig_defaults tpc)
  = (artifact_dir tpc ++ "/data_ingestion/feature_store/raw.parquet")%string /\
  training_file_path (DataIngestionConfig_defaults tpc)
  = (artifact_dir tpc ++ "/data_ingestion/ingested/train.parquet")%string /\
  testing_file_path (DataIngestionConfig_defaults tpc)
  = (artifact_dir tpc ++ "/data_ingestion/ingested/test.parquet")%string.
Proof.
  intros Ha He. unfold DataIngestionConfig_defaults.
  cbn [feature_store_file_path training_file_path testing_file_path].
  repeat split; rewrite join_three by (auto; reflexivity); reflexivity.
Qed.

Section Artifact.
Context `{NumpyRandom}.

(** C8 (as amended): the artifact of a successful run holds exactly the
    three paths of the run's configuration, each of which holds a file when
    the run returns, and the run changed no file elsewhere; for the
    configuration the class builds from a pipeline configuration these are
    [<artifact_dir>/data_ingestion/feature_store/raw.parquet],
    [<artifact_dir>/data_ingestion/ingested/train.parquet] and
    [<artifact_dir>/data_ingestion/ingested/test.parquet]. *)
Theorem artifact_holds_saved_paths
    (self : DataIngestion) (w w' : World) (art : DataIngestionArtifact) :
  saver self = ParquetDataSaver ->
  initiate_data_ingestion self w = (inr art, w') ->
  art = {| raw_file_path := feature_store_file_path (config self);
           train_file_path := training_file_path (config self);
           test_file_path := testing_file_path (config self) |} /\
  is_Some (files (fs w') !! raw_file_path art) /\
  is_Some (files (fs w') !! train_file_path art) /\
  is_Some (files (fs w') !! test_file_path art) /\
  (exists df w1,
     get_clean_dataframe (service self) (collection_name (config self)) None w = (inr df, w1) /\
     forall q, q <> raw_file_path art -> q <> train_file_path art -> q <> test_file_path art ->
               files (fs w') !! q = files (fs w1) !! q) /\
  (forall tpc,
     config self = DataIngestionConfig_defaults tpc ->
     artifact_dir tpc <> "" -> endswith_sep (artifact_dir tpc) = false ->
     raw_file_path art
     = (artifact_dir tpc ++ "/data_ingestion/feature_store/raw.parquet")%string /\
     train_file_path art
     = (artifact_dir tpc ++ "/data_ingestion/ingested/train.parquet")%string /\
     test_file_path art
     = (artifact_dir tpc ++ "/data_ingestion/ingested/test.parquet")%string).
Proof.
  intros Hsaver Hrun.
  apply initiate_inr in Hrun as (df & w1 & w2 & Hsvc & Hne & Hsave & Hsplit & ->).
  cbn [raw_file_path train_file_path test_file_path].
  apply split_data_as_train_test_inr in Hsplit
    as (pruned & train & test & wa & _ & _ & Hsa & Hsb).
  rewrite Hsaver in Hsave, Hsa, Hsb. unfold ParquetDataSaver in Hsave, Hsa, Hsb.
  cbn [save] in Hsave, Hsa, Hsb.
  apply ParquetDataSaver_save_inr in Hsave as (Hf0 & _).
  apply ParquetDataSaver_save_inr in Hsa as (Hfa & _).
  apply ParquetDataSaver_save_inr in Hsb as (Hfb & _).
  rewrite Hfb, Hfa, Hf0.
  split; [reflexivity|].
  split; [rewrite !lookup_insert; repeat case_decide; try congruence; eexists; reflexivity|].
  split; [rewrite !lookup_insert; repeat case_decide; try congruence; eexists; reflexivity|].
  split; [rewrite !lookup_insert; repeat case_decide; try congruence; eexists; reflexivity|].
  split.
  - exists df, w1. split; [exact Hsvc|]. intros q Hq1 Hq2 Hq3.
    rewrite !lookup_insert_ne by congruence. reflexivity.
  - intros tpc -> Ha He. apply defaults_layout; assumption.
Qed.

End Artifact.

Lemma artifact_holds_saved_paths_witness :
  let self := sample_ingestion DataIngestionConfig_new five_rows in
  let out := initiate_data_ingestion self sample_world in
  fst out = inr {| raw_file_path := "artifacts/data_ingestion/feature_store/raw.parquet";
                   train_file_path := "artifacts/data_ingestion/ingested/train.parquet";
                   test_file_path := "artifacts/data_ingestion/ingested/test.parquet" |} /\
  is_Some (files (fs (snd out)) !! "artifacts/data_ingestion/feature_store/raw.parquet") /\
  is_Some (files (fs (snd out)) !! "artifacts/data_ingestion/ingested/train.parquet") /\
  is_Some (files (fs (snd out)) !! "artifacts/data_ingestion/ingested/test.parquet").
Proof.
  intros self out.
  assert (Hrun : initiate_data_ingestion self sample_world
                 = (inr {| raw_file_path := feature_store_file_path (config self);
                           train_file_path := training_file_path (config self);
                           test_file_path := testing_file_path (config self) |}, snd out))
    by (vm_compute; reflexivity).
  destruct (artifact_holds_saved_paths self sample_world (snd out) _ eq_refl Hrun)
    as (_ & H1 & H2 & H3 & _ & Hlayout).
  destruct (Hlayout training_pipeline_config eq_refl ltac:(discriminate) eq_refl)
    as (Hraw & Htrain & Htest).
  split; [subst out; rewrite Hrun; reflexivity|].
  cbn [raw_file_path train_file_path test_file_path] in H1, H2, H3.
  repeat split; assumption.
Defined.

(** C8, as stated, fails for a configuration built with a path of the
    caller's choice: the run succeeds and the artifact names that path,
    which does not lie under the artifact directory. *)
Lemma artifact_layout_counterexample :
  let self := sample_ingestion relocated_config five_rows in
  exists art,
    fst (initiate_data_ingestion self sample_world) = inr art /\
    raw_file_path art = "snapshots/raw.parquet" /\
    raw_file_path art
    <> (artifact_dir training_pipeline_config ++ "/data_ingestion/feature_store/raw.parquet")%string.
Proof.
  intros self. eexists. split; [vm_compute; reflexivity|].
  split; [reflexivity | discriminate].
Qed.

(** ** The split fraction *)

Section Fraction.
Context `{NumpyRandom}.

(** C7 (as amended): the configuration built with default fields has the
    split fraction 0.2, strictly between 0 and 1.  The constructor stores
    a fraction passed to it as it is; a fraction outside that range is
    refused only by the split step, which raises [USvisaException] and
    leaves the file system as it was. *)
Theorem default_fraction_in_range_and_split_guards :
  ((0 < train_test_split_ratio DataIngestionConfig_new)%Q /\
   (train_test_split_ratio DataIngestionConfig_new < 1)%Q) /\
  (forall d f tr te c r,
     train_test_split_ratio (DataIngestionConfig_init d f tr te (Some r) c) = r) /\
  (forall (self : DataIngestion) (df : DataFrame) (w : World),
     ~ ((0 < train_test_split_ratio (config self))%Q /\
        (train_test_split_ratio (config self) < 1)%Q) ->
     is_USvisaException (fst (split_data_as_train_test self df w)) = true /\
     snd (split_data_as_train_test self df w) = w).
Proof.
  split; [split; reflexivity|]. split; [reflexivity|].
  intros self df w Hout.
  unfold split_data_as_train_test, try_except. unfold bind at 1. unfold lift_result.
  destruct (prune_columns_total self df) as (pruned & -> & _).
  unfold train_test_split, bind, lift_result, _validate_shuffle_split.
  set (r := train_test_split_ratio (config self)) in *.
  assert (Hb : Qle_bool r 0 || Qle_bool 1 r = true).
  { destruct (Qlt_le_dec 0 r) as [H0|H0].
    - destruct (Qlt_le_dec r 1) as [H1|H1]; [tauto|].
      apply Qle_bool_iff in H1. rewrite H1. apply orb_true_r.
    - apply Qle_bool_iff in H0. rewrite H0. reflexivity. }
  rewrite Hb. split; reflexivity.
Qed.

End Fraction.

Lemma default_fraction_in_range_and_split_guards_witness :
  let cfg := DataIngestionConfig_init None None None None (Some (3 # 2)) None in
  is_USvisaException
    (fst (split_data_as_train_test (sample_ingestion cfg five_rows) five_rows sample_world))
  = true.
Proof.
  intros cfg.
  destruct (@default_fraction_in_range_and_split_guards ToyRandom) as (_ & _ & Hguard).
  apply (Hguard (sample_ingestion cfg five_rows) five_rows sample_world).
  intros [_ Hlt]. vm_compute in Hlt. discriminate.
Defined.

(** C7, as stated, fails: the constructor accepts the fraction 1.5 and
    builds a configuration with it. *)
Lemma constructed_fraction_counterexample :
  let cfg := DataIngestionConfig_init None None None None (Some (3 # 2)) None in
  ~ ((0 < train_test_split_ratio cfg)%Q /\ (train_test_split_ratio cfg < 1)%Q).
Proof. intros cfg [_ Hlt]. vm_compute in Hlt. discriminate. Qed.

(** ** The shared connection *)

Module ConnectorFacts.
Import Connector.

Section Invariant.
Context `{Pymongo}.

Lemma start_consistent : consistent start.
Proof.
  split; [reflexivity|]. intros self o Ho. cbn in Ho.
  rewrite lookup_empty in Ho. discriminate.
Qed.

Lemma set_client_consistent (self : nat) (p : Process) :
  consistent p -> consistent (set_client self (_shared_client p) p).
Proof.
  intros [He Ho]. split; [exact He|].
  intros i o Hi. cbn in *. rewrite lookup_alter in Hi.
  case_decide as Hd.
  - apply fmap_Some in Hi as (o' & _ & ->). cbn. auto.
  - eauto.
Qed.

Lemma init_consistent (config : MongoDBConfig) (p : Process) :
  consistent p ->
  consistent (snd (__init__ config p)) /\
  _shared_client (snd (__init__ config p)) = _shared_client p.
Proof.
  intros [He Ho]. split; [|reflexivity]. split; [exact He|].
  intros i o Hi. cbn in *. rewrite lookup_insert in Hi.
  case_decide as Hd.
  - injection Hi as <-. cbn. auto.
  - eauto.
Qed.

(** [connect] keeps the process consistent, never replaces a shared
    client, and on a normal return leaves its object holding the shared
    client. *)
Lemma connect_consistent (self : nat) (o : MongoDBClient) (p p' : Process)
    (r : Result unit) :
  consistent p ->
  objects p !! self = Some o ->
  connect self o p = (r, p') ->
  consistent p' /\
  (forall c, _shared_client p = Some c -> _shared_client p' = Some c) /\
  (succeeded r = true ->
   exists c, _shared_client p' = Some c /\
             objects p' !! self = Some {| _config := _config o; _client := Some c |}).
Proof.
  intros Hc Hself. unfold connect.
  destruct (_shared_client p) as [c|] eqn:Hs.
  - intros [= <- <-]. split; [|split].
    + apply set_client_consistent. exact Hc.
    + intros c' [= <-]. exact Hs.
    + intros _. exists c. split; [exact Hs|].
      cbn. rewrite lookup_alter_eq, Hself, Hs. reflexivity.
  - unfold new_MongoClient. destruct (accepts (uri (_config o))).
    + intros [= <- <-].
      set (c := {| client_id := length (established p); client_uri := uri (_config o) |}).
      assert (Hc1 : consistent
                      (set_shared_client c
                         {| _shared_client := _shared_client p;
                            objects := objects p;
                            established := established p ++ [c] |})).
      { destruct Hc as [He Ho]. split.
        - cbn. rewrite He, Hs. reflexivity.
        - intros i o' Hi. cbn in *. left.
          destruct (Ho i o' Hi) as [E|E]; [exact E | congruence]. }
      split; [|split].
      * exact (set_client_consistent self _ Hc1).
      * intros c' [=].
      * intros _. exists c. split; [reflexivity|].
        cbn. rewrite lookup_alter_eq, Hself. reflexivity.
    + intros [= <- <-]. split; [exact Hc|]. split; [intros c [=]|].
      cbn. discriminate.
Qed.

Lemma get_database_consistent (self : nat) (o : MongoDBClient) (name : option string)
    (p p' : Process) (r : Result Database) :
  consistent p ->
  objects p !! self = Some o ->
  get_database self o name p = (r, p') ->
  consistent p' /\
  (forall c, _shared_client p = Some c -> _shared_client p' = Some c) /\
  (forall d, r = inr d -> _shared_client p' = Some (db_client d)).
Proof.
  intros Hc Hself. unfold get_database.
  destruct (_client o) as [c|] eqn:Hcl.
  - intros [= <- <-]. split; [exact Hc|]. split; [auto|].
    intros d [= <-]. cbn. destruct Hc as [_ Ho].
    destruct (Ho self o Hself) as [E|E]; congruence.
  - destruct (connect self o p) as [[e|[]] p1] eqn:Hconn.
    + intros [= <- <-].
      destruct (connect_consistent self o p p1 _ Hc Hself Hconn) as (Hc1 & Hm & _).
      split; [exact Hc1|]. split; [exact Hm|]. discriminate.
    + destruct (connect_consistent self o p p1 _ Hc Hself Hconn)
        as (Hc1 & Hm & Hret).
      destruct (Hret eq_refl) as (c & Hsc & Hobj). rewrite Hobj.
      intros [= <- <-]. split; [exact Hc1|]. split; [exact Hm|].
      intros d [= <-]. exact Hsc.
Qed.

Lemma call_consistent (c : Call) (p p' : Process) (out : Outcome) :
  consistent p ->
  call c p = (out, p') ->
  consistent p' /\
  (forall m, _shared_client p = Some m -> _shared_client p' = Some m) /\
  (forall d, out = Handle (inr d) -> _shared_client p' = Some (db_client d)).
Proof.
  intros Hc. destruct c as [config|self|self name]; cbn [call].
  - pose proof (init_consistent config p Hc) as [Hc1 Hs].
    destruct (__init__ config p) as [i p1]. cbn [snd] in *.
    intros [= <- <-]. split; [exact Hc1|]. split; [congruence|]. discriminate.
  - destruct (objects p !! self) as [o|] eqn:Hself.
    + destruct (connect self o p) as [r p1] eqn:Hconn. intros [= <- <-].
      destruct (connect_consistent self o p p1 r Hc Hself Hconn) as (Hc1 & Hm & _).
      split; [exact Hc1|]. split; [exact Hm|]. discriminate.
    + intros [= <- <-]. split; [exact Hc|]. split; [auto|]. discriminate.
  - destruct (objects p !! self) as [o|] eqn:Hself.
    + destruct (get_database self o name p) as [r p1] eqn:Hget. intros [= <- <-].
      destruct (get_database_consistent self o name p p1 r Hc Hself Hget)
        as (Hc1 & Hm & Hd).
      split; [exact Hc1|]. split; [exact Hm|].
      intros d [= ->]. apply Hd. reflexivity.
    + intros [= <- <-]. split; [exact Hc|]. split; [auto|]. discriminate.
Qed.

Lemma run_consistent (cs : list Call) (p p' : Process) (outs : list Outcome) :
  consistent p ->
  run cs p = (outs, p') ->
  consistent p' /\
  (forall m, _shared_client p = Some m -> _shared_client p' = Some m) /\
  (forall d, In (Handle (inr d)) outs -> _shared_client p' = Some (db_client d)).
Proof.
  revert p p' outs. induction cs as [|c cs IH]; intros p p' outs Hc; cbn [run].
  - intros [= <- <-]. split; [exact Hc|]. split; [auto|]. intros d [].
  - destruct (call c p) as [out p1] eqn:Hcall.
    destruct (run cs p1) as [outs1 p2] eqn:Hrun. intros [= <- <-].
    destruct (call_consistent c p p1 out Hc Hcall) as (Hc1 & Hm1 & Hd1).
    destruct (IH p1 p2 outs1 Hc1 Hrun) as (Hc2 & Hm2 & Hd2).
    split; [exact Hc2|]. split; [auto|].
    intros d [->|Hin]; [|auto]. apply Hm2, Hd1. reflexivity.
Qed.

(** C9: the connection is established once per process.  Along any
    sequence of constructions, [connect] and [get_database] calls on any
    connector objects, the driver builds at most one client, namely the
    shared one; a shared client that is set stays the same to the end;
    every connector object holds no client or the shared one, and every
    database handle handed out is a handle on it.  While no shared client
    is set, a [connect], or a [get_database] that connects on demand, on an
    object whose URI the driver accepts sets it. *)
Theorem connection_is_established_once (cs1 cs2 : list Call) :
  let '(outs1, p1) := run cs1 start in
  let '(outs2, p2) := run cs2 p1 in
  (length (established p2) <= 1)%nat /\
  established p2 = option_list (_shared_client p2) /\
  (forall c, _shared_client p1 = Some c -> _shared_client p2 = Some c) /\
  (forall c, _shared_client p2 = Some c ->
             objects_on c p2 /\ handles_on c (outs1 ++ outs2)) /\
  (forall self o name,
     _shared_client p2 = None ->
     objects p2 !! self = Some o ->
     accepts (uri (_config o)) = true ->
     (exists c p3,
        connect self o p2 = (inr tt, p3) /\
        _shared_client p3 = Some c /\ established p3 = [c] /\
        client_uri c = uri (_config o)) /\
     (exists d p3,
        get_database self o name p2 = (inr d, p3) /\
        _shared_client p3 = Some (db_client d) /\ established p3 = [db_client d])).
Proof.
  destruct (run cs1 start) as [outs1 p1] eqn:Hrun1.
  destruct (run cs2 p1) as [outs2 p2] eqn:Hrun2.
  destruct (run_consistent cs1 start p1 outs1 start_consistent Hrun1) as (Hc1 & _ & Hd1).
  destruct (run_consistent cs2 p1 p2 outs2 Hc1 Hrun2) as (Hc2 & Hm2 & Hd2).
  pose proof Hc2 as [He2 Ho2].
  split; [rewrite He2; destruct (_shared_client p2); cbn; lia|].
  split; [exact He2|]. split; [exact Hm2|]. split.
  - intros c Hs. split.
    + intros self o Hself. destruct (Ho2 self o Hself) as [E|E]; [auto|].
      right. congruence.
    + intros d Hin. apply in_app_or in Hin as [Hin|Hin].
      * apply Hd1, Hm2 in Hin. congruence.
      * apply Hd2 in Hin. congruence.
  - intros self o name Hs Hself Hacc.
    assert (Hconn : exists c p3,
               connect self o p2 = (inr tt, p3) /\
               _shared_client p3 = Some c /\ established p3 = [c] /\
               client_uri c = uri (_config o) /\
               objects p3 !! self = Some {| _config := _config o; _client := Some c |}).
    { unfold connect, new_MongoClient. rewrite Hs, Hacc.
      eexists _, _. split; [reflexivity|]. cbn.
      rewrite He2, Hs, lookup_alter_eq, Hself. cbn. repeat split. }
    destruct Hconn as (c & p3 & Hconn & Hs3 & He3 & Huri & Hobj).
    split; [exists c, p3; auto|].
    unfold get_database.
    assert (E : _client o = None) by (destruct (Ho2 self o Hself); congruence).
    rewrite E, Hconn, Hobj. eexists _, p3. split; [reflexivity|]. cbn. auto.
Qed.

End Invariant.

Lemma connection_is_established_once_witness :
  let shared := {| client_id := 0; client_uri := "mongodb://first" |} in
  let '(outs1, p1) := @run nonempty_uri (two_connectors ++ [GetDatabase 0%nat None]) start in
  let '(outs2, p2) := @run nonempty_uri (two_connectors_at_work 0 1) p1 in
  _shared_client p1 = Some shared /\ _shared_client p2 = Some shared /\
  established p2 = [shared] /\
  objects_on shared p2 /\ handles_on shared (outs1 ++ outs2).
Proof.
  intros shared.
  pose proof (@connection_is_established_once nonempty_uri
                (two_connectors ++ [GetDatabase 0%nat None])
                (two_connectors_at_work 0 1)) as Honce.
  destruct (@run nonempty_uri (two_connectors ++ [GetDatabase 0%nat None]) start)
    as [outs1 p1] eqn:Hrun1.
  destruct (@run nonempty_uri (two_connectors_at_work 0 1) p1) as [outs2 p2] eqn:Hrun2.
  destruct Honce as (_ & He & Hm & Hon & _).
  assert (Hs1 : _shared_client p1 = Some shared).
  { replace p1 with (snd (@run nonempty_uri
                            (two_connectors ++ [GetDatabase 0%nat None]) start))
      by (rewrite Hrun1; reflexivity).
    vm_compute. reflexivity. }
  pose proof (Hm shared Hs1) as Hs2.
  destruct (Hon shared Hs2) as [Hobj Hhandles].
  rewrite He, Hs2. repeat split; assumption.
Defined.

End ConnectorFacts.

(** * Further properties of the ingestion stage *)

Section Wrapping.
Context `{NumpyRandom}.

Lemma try_except_wraps {A : Type} (body : M A) (w w' : World) (e : Exception) :
  try_except body (fun e => raise (USvisaException e)) w = (inl e, w') ->
  exists cause, e = USvisaException cause /\ body w = (inl cause, w').
Proof.
  unfold try_except, raise. destruct (body w) as [[c|a] w0]; [|discriminate].
  intros [= <- <-]. eauto.
Qed.

Lemma initiate_failure_wrapped (self : DataIngestion) (w : World) (e : Exception) :
  fst (initiate_data_ingestion self w) = inl e ->
  exists cause, e = USvisaException (USvisaException cause).
Proof.
  destruct (initiate_data_ingestion self w) as [r w'] eqn:Hrun. cbn [fst].
  intros ->. unfold initiate_data_ingestion in Hrun.
  apply try_except_wraps in Hrun as (c & -> & Hbody).
  unfold bind in Hbody.
  destruct (export_data_into_feature_store self w) as [[c1|df] w1] eqn:Hexp.
  - injection Hbody as <- <-.
    unfold export_data_into_feature_store in Hexp.
    apply try_except_wraps in Hexp as (c2 & -> & _). eauto.
  - destruct (split_data_as_train_test self df w1) as [[c2|[]] w2] eqn:Hsp;
      [|discriminate].
    injection Hbody as <- <-.
    unfold split_data_as_train_test in Hsp.
    apply try_except_wraps in Hsp as (c3 & -> & _). eauto.
Qed.

(** X1: whatever goes wrong in [initiate_data_ingestion], what it raises
    is a [USvisaException] whose cause is the [USvisaException] of the step
    that failed: no [ValueError], [RuntimeError] or file-system error
    leaves the orchestrator unwrapped, and the world is then the one the
    failing step left. *)
Theorem initiate_failure_is_wrapped_twice
    (self : DataIngestion) (w : World) (e : Exception) :
  fst (initiate_data_ingestion self w) = inl e ->
  exists cause,
    e = USvisaException (USvisaException cause) /\
    (fst (export_data_into_feature_store self w) = inl (USvisaException cause) \/
     exists df w1,
       export_data_into_feature_store self w = (inr df, w1) /\
       fst (split_data_as_train_test self df w1) = inl (USvisaException cause)).
Proof.
  intros Hrun. destruct (initiate_failure_wrapped self w e Hrun) as [cause ->].
  exists cause. split; [reflexivity|].
  revert Hrun. unfold initiate_data_ingestion, try_except, bind, raise.
  destruct (export_data_into_feature_store self w) as [[c1|df] w1] eqn:Hexp.
  - cbn [fst]. intros [= ->]. left. reflexivity.
  - destruct (split_data_as_train_test self df w1) as [[c2|[]] w2] eqn:Hsp; cbn [fst];
      [|discriminate].
    intros [= ->]. right. exists df, w1. rewrite Hsp. split; reflexivity.
Qed.

End Wrapping.

Lemma initiate_failure_is_wrapped_twice_witness :
  exists cause,
    fst (initiate_data_ingestion (sample_ingestion DataIngestionConfig_new no_rows)
           sample_world)
    = inl (USvisaException (USvisaException cause)).
Proof.
  destruct (initiate_failure_is_wrapped_twice
              (sample_ingestion DataIngestionConfig_new no_rows) sample_world
              (USvisaException (USvisaException
                 (USvisaException (Message "Extracted dataframe is empty."))))
              eq_refl) as (cause & Hc & _).
  exists cause. rewrite <- Hc. reflexivity.
Defined.

Section Frame.
Context `{NumpyRandom}.



End Frame.



(** ** Sizes of the partitions *)

(** What the validation returns: a fraction strictly between 0 and 1 was
    given, and the two sizes are positive and add up to the number of rows. *)
Lemma validate_shuffle_split_sound (n : nat) (r : Q) (n_train n_test : nat) :
  _validate_shuffle_split n r = inr (n_train, n_test) ->
  (0 < r)%Q /\ (r < 1)%Q /\
  n_test = Z.to_nat (Qceiling (r * inject_Z (Z.of_nat n))) /\
  (n_train + n_test)%nat = n /\ (1 <= n_train)%nat /\ (1 <= n_test)%nat.
Proof.
  unfold _validate_shuffle_split.
  destruct (Qle_bool r 0) eqn:Ha; [discriminate|].
  destruct (Qle_bool 1 r) eqn:Hb; [discriminate|]. cbn [orb].
  assert (H0 : (0 < r)%Q).
  { apply Qnot_le_lt. intros Hle. apply Qle_bool_iff in Hle. congruence. }
  assert (H1 : (r < 1)%Q).
  { apply Qnot_le_lt. intros Hle. apply Qle_bool_iff in Hle. congruence. }
  pose proof (test_share_bounds (Z.of_nat n) r ltac:(lia) H0 H1) as Hbound.
  pose proof (Qle_ceiling (r * inject_Z (Z.of_nat n))) as Hc.
  set (c := Qceiling (r * inject_Z (Z.of_nat n))) in *.
  destruct (Nat.eqb_spec (n - Z.to_nat c) 0) as [E|E]; [discriminate|].
  intros [= <- <-]. repeat split; try assumption; try lia.
  assert (Hn : (0 < inject_Z (Z.of_nat n))%Q).
  { change 0%Q with (inject_Z 0). rewrite <- Zlt_Qlt. lia. }
  assert (Hpos : (inject_Z 0 < inject_Z c)%Q).
  { eapply Qlt_le_trans; [|exact Hc]. change (inject_Z 0) with 0%Q.
    apply Qmult_lt_0_compat; assumption. }
  rewrite <- Zlt_Qlt in Hpos. lia.
Qed.

Section Sizes.
Context `{NumpyRandom}.

Lemma train_test_split_inr (df : DataFrame) (r : Q) (random_state : option Z)
    (w w' : World) (train test : DataFrame) :
  train_test_split df r random_state w = (inr (train, test), w') ->
  exists n_train n_test,
    _validate_shuffle_split (len df) r = inr (n_train, n_test) /\
    let perm := fst (permutation (check_random_state random_state w) (len df)) in
    train = iloc df (firstn n_train (skipn n_test perm)) /\
    test = iloc df (firstn n_test perm).
Proof.
  unfold train_test_split, bind, lift_result.
  destruct (_validate_shuffle_split (len df) r) as [e|[n_train n_test]]; [discriminate|].
  destruct (permutation _ _) as [perm g] eqn:Hperm. intros [= <- <- _].
  exists n_train, n_test. cbn [fst]. auto.
Qed.

(** X8: under the default fraction 0.2 the split accepts exactly the
    record sets of two rows or more. *)
Theorem default_fraction_needs_two_rows (df : DataFrame) (random_state : option Z)
    (w : World) :
  succeeded (fst (train_test_split df DATA_INGESTION_TRAIN_TEST_SPLIT_RATIO random_state w))
  = true <-> (2 <= len df)%nat.
Proof.
  split.
  - destruct (train_test_split df _ random_state w) as [[e|[train test]] w'] eqn:Hs;
      [discriminate|]. intros _.
    apply train_test_split_inr in Hs as (n_train & n_test & Hv & _).
    apply validate_shuffle_split_sound in Hv. lia.
  - intros Hlen.
    assert (Hfl : (1 <= Qfloor (inject_Z (Z.of_nat (len df))
                               * (1 - DATA_INGESTION_TRAIN_TEST_SPLIT_RATIO)))%Z).
    { change 1%Z with (Qfloor (inject_Z 1)) at 1. apply Qfloor_resp_le.
      assert (Hq : (inject_Z 2 <= inject_Z (Z.of_nat (len df)))%Q)
        by (rewrite <- Zle_Qle; lia).
      unfold DATA_INGESTION_TRAIN_TEST_SPLIT_RATIO.
      change (inject_Z 1) with 1%Q. change (inject_Z 2) with 2%Q in Hq.
      generalize dependent (inject_Z (Z.of_nat (len df))). intros x Hx. lra. }
    destruct (validate_shuffle_split_inr (len df) DATA_INGESTION_TRAIN_TEST_SPLIT_RATIO
                ltac:(reflexivity) Hfl) as (n_train & n_test & Hv & _).
    destruct (train_test_split_run df _ random_state w n_train n_test Hv) as (w' & -> & _).
    reflexivity.
Qed.

End Sizes.

(** ** Pruning and splitting together *)

Lemma filter_filter_same {A : Type} (f : A -> bool) (l : list A) :
  List.filter f (List.filter f l) = List.filter f l.
Proof.
  induction l as [|a l IH]; cbn [List.filter]; [reflexivity|].
  destruct (f a) eqn:Hf; [|exact IH]. cbn [List.filter]. rewrite Hf, IH. reflexivity.
Qed.

Lemma without_without (labels : list string) (df : DataFrame) :
  without labels (without labels df) = without labels df.
Proof.
  unfold without. cbn [columns rows]. f_equal.
  - apply filter_filter_same.
  - rewrite List.map_map. apply List.map_ext. intros r. apply filter_filter_same.
Qed.

Lemma without_iloc (labels : list string) (df : DataFrame) (indices : list nat) :
  without labels (iloc df indices) = iloc (without labels df) indices.
Proof.
  unfold without, iloc. cbn [columns rows]. f_equal.
  rewrite !List.map_map. apply List.map_ext. intros i.
  set (keep := fun kv : string * Value => negb (mem_label (fst kv) labels)).
  change (@nil (string * Value)) with (List.filter keep []) at 2.
  symmetry. apply map_nth.
Qed.

Lemma without_len (labels : list string) (df : DataFrame) :
  len (without labels df) = len df.
Proof. unfold len, without. cbn [rows]. apply length_map. Qed.

Section PruneAndSplit.
Context `{NumpyRandom}.

(** The pruning step is [without] for some list of labels, or nothing. *)
Lemma prune_columns_cases (self : DataIngestion) :
  (forall df, prune_columns self df = inr df) \/
  (exists labels, forall df, prune_columns self df = inr (without labels df)).
Proof.
  unfold prune_columns. destruct (truthy _); [right|left; reflexivity].
  eexists. intros df. unfold drop. reflexivity.
Qed.

(** X6: pruning twice is pruning once. *)
Theorem prune_columns_idempotent (self : DataIngestion) (df pruned : DataFrame) :
  prune_columns self df = inr pruned ->
  prune_columns self pruned = inr pruned.
Proof.
  destruct (prune_columns_cases self) as [Hid|[labels Hl]].
  - intros _. apply Hid.
  - rewrite !Hl. intros [= <-]. rewrite without_without. reflexivity.
Qed.

(** X7: a schema without a [drop_columns] entry, or with an empty or null
    one, leaves the record set as it is; a single name in place of a list
    drops that one column. *)
Theorem prune_columns_without_list (self : DataIngestion) (df : DataFrame) :
  (_schema_config self !! "drop_columns" = None \/
   _schema_config self !! "drop_columns" = Some YNull \/
   _schema_config self !! "drop_columns" = Some (YList []) \/
   _schema_config self !! "drop_columns" = Some (YStr "") ->
   prune_columns self df = inr df) /\
  (forall name, name <> "" ->
     _schema_config self !! "drop_columns" = Some (YStr name) ->
     prune_columns self df = inr (without [name] df)).
Proof.
  unfold prune_columns, dict_get. split.
  - intros [-> | [-> | [-> | ->]]]; reflexivity.
  - intros name Hname ->. cbn.
    destruct (String.eqb_spec name ""); [congruence|]. reflexivity.
Qed.

(** X5: the split picks rows by position only, so pruning before the
    split, as the step does, gives the partitions that pruning each
    partition after the split would give. *)
Theorem pruning_commutes_with_split
    (self : DataIngestion) (df pruned train test : DataFrame)
    (ratio : Q) (random_state : option Z) (w : World) :
  prune_columns self df = inr pruned ->
  fst (train_test_split df ratio random_state w) = inr (train, test) ->
  exists train' test',
    prune_columns self train = inr train' /\
    prune_columns self test = inr test' /\
    fst (train_test_split pruned ratio random_state w) = inr (train', test').
Proof.
  intros Hp Hs.
  destruct (train_test_split df ratio random_state w) as [r w'] eqn:Hrun.
  cbn [fst] in Hs. subst r.
  apply train_test_split_inr in Hrun as (n_train & n_test & Hv & Htr & Hte).
  destruct (prune_columns_cases self) as [Hid|[labels Hl]].
  - rewrite Hid in Hp. injection Hp as <-.
    exists train, test. rewrite !Hid. repeat split.
    destruct (train_test_split_run df ratio random_state w n_train n_test Hv)
      as (w'' & -> & _). cbn [fst]. rewrite Htr, Hte. reflexivity.
  - rewrite Hl in Hp. injection Hp as <-.
    exists (without labels train), (without labels test). rewrite !Hl. repeat split.
    assert (Hv' : _validate_shuffle_split (len (without labels df)) ratio
                  = inr (n_train, n_test)) by (rewrite without_len; exact Hv).
    destruct (train_test_split_run (without labels df) ratio random_state w
                n_train n_test Hv') as (w'' & -> & _).
    cbn [fst]. rewrite Htr, Hte, !without_iloc, without_len. reflexivity.
Qed.

End PruneAndSplit.

Lemma prune_columns_idempotent_witness :
  prune_columns (sample_ingestion DataIngestionConfig_new five_rows)
    (without ["case_id"; "requires_job_training"] five_rows)
  = inr (without ["case_id"; "requires_job_training"] five_rows).
Proof.
  apply (prune_columns_idempotent
           (sample_ingestion DataIngestionConfig_new five_rows) five_rows).
  reflexivity.
Defined.

Lemma pruning_commutes_with_split_witness :
  exists train' test',
    fst (train_test_split (without ["case_id"; "requires_job_training"] five_rows)
           DATA_INGESTION_TRAIN_TEST_SPLIT_RATIO (Some 42%Z) sample_world)
    = inr (train', test') /\
    columns train' = ["continent"; "case_status"] /\ len train' = 4%nat.
Proof.
  destruct (pruning_commutes_with_split
              (sample_ingestion DataIngestionConfig_new five_rows) five_rows
              (without ["case_id"; "requires_job_training"] five_rows)
              (iloc five_rows [3; 2; 1; 0]%nat) (iloc five_rows [4]%nat)
              DATA_INGESTION_TRAIN_TEST_SPLIT_RATIO (Some 42%Z) sample_world)
    as (train' & test' & Htr & _ & Hs); [reflexivity | reflexivity |].
  exists train', test'. split; [exact Hs|].
  injection Htr as <-. split; reflexivity.
Defined.

Lemma prune_columns_without_list_witness :
  prune_columns
    {| config := DataIngestionConfig_new;
       service := @constant_service ToyRandom five_rows;
       saver := ParquetDataSaver;
       _schema_config := {[ "drop_columns" := YStr "case_id" ]} |} five_rows
  = inr (without ["case_id"] five_rows).
Proof.
  apply (prune_columns_without_list
           {| config := DataIngestionConfig_new;
              service := @constant_service ToyRandom five_rows;
              saver := ParquetDataSaver;
              _schema_config := {[ "drop_columns" := YStr "case_id" ]} |} five_rows);
    [discriminate | reflexivity].
Defined.

(** ** A successful run, end to end *)

Section EndToEnd.
Context `{NumpyRandom}.

(** X4: a run that returns its artifact leaves three files that fit
    together: the snapshot holds the cleaned record set, the train and test
    files hold two non-empty partitions whose rows are, as a multiset, the
    rows of the pruned record set, and the partitions have together as many
    rows as the snapshot. *)
Theorem successful_run_conserves_rows
    (self : DataIngestion) (w w1 w' : World) (df pruned : DataFrame)
    (art : DataIngestionArtifact) :
  permutation_range ->
  saver self = ParquetDataSaver ->
  get_clean_dataframe (service self) (collection_name (config self)) None w = (inr df, w1) ->
  initiate_data_ingestion self w = (inr art, w') ->
  prune_columns self df = inr pruned ->
  feature_store_file_path (config self) <> training_file_path (config self) ->
  feature_store_file_path (config self) <> testing_file_path (config self) ->
  training_file_path (config self) <> testing_file_path (config self) ->
  exists train test,
    files (fs w') !! raw_file_path art = Some {| file_format := Parquet; file_data := df |} /\
    files (fs w') !! train_file_path art
    = Some {| file_format := Parquet; file_data := train |} /\
    files (fs w') !! test_file_path art
    = Some {| file_format := Parquet; file_data := test |} /\
    Permutation (rows train ++ rows test) (rows pruned) /\
    (len train + len test)%nat = len df /\
    (1 <= len train)%nat /\ (1 <= len test)%nat.
Proof.
  intros Hperm Hsaver Hsvc Hrun Hp Hd1 Hd2 Hd3.
  apply initiate_inr in Hrun as (df' & w1' & w2 & Hsvc' & Hne & Hsave & Hsplit & ->).
  rewrite Hsvc in Hsvc'. injection Hsvc' as <- <-.
  cbn [raw_file_path train_file_path test_file_path].
  apply split_data_as_train_test_inr in Hsplit
    as (pruned' & train & test & wa & Hp' & Ht & Hsa & Hsb).
  rewrite Hp in Hp'. injection Hp' as <-.
  rewrite Hsaver in Hsave, Hsa, Hsb. unfold ParquetDataSaver in Hsave, Hsa, Hsb.
  cbn [save] in Hsave, Hsa, Hsb.
  apply ParquetDataSaver_save_inr in Hsave as (Hf0 & _).
  apply ParquetDataSaver_save_inr in Hsa as (Hfa & _).
  apply ParquetDataSaver_save_inr in Hsb as (Hfb & _).
  apply train_test_split_inr in Ht as (n_train & n_test & Hv & Htr & Hte).
  apply validate_shuffle_split_sound in Hv as (_ & _ & _ & Hsum & Hn1 & Hn2).
  set (perm := fst (permutation (check_random_state (Some 42%Z) w2) (len pruned))) in *.
  assert (Hpp : Permutation perm (seq 0 (len pruned))) by apply Hperm.
  assert (Hlen : length perm = len pruned)
    by (rewrite (Permutation_length Hpp); apply length_seq).
  assert (Hall : firstn n_train (skipn n_test perm) = skipn n_test perm)
    by (apply firstn_all2; rewrite length_skipn; lia).
  rewrite Hall in Htr.
  assert (Hpl : len pruned = len df).
  { destruct (prune_columns_total self df) as (p0 & Hp0 & Hl0). congruence. }
  exists train, test. rewrite Hfb, Hfa, Hf0.
  split; [rewrite !lookup_insert_ne by congruence; apply lookup_insert_eq|].
  split; [rewrite lookup_insert_ne by congruence; apply lookup_insert_eq|].
  split; [apply lookup_insert_eq|].
  rewrite Htr, Hte, !iloc_len, length_skipn, length_firstn, Hlen.
  split; [apply iloc_partition; exact Hpp|]. lia.
Qed.

End EndToEnd.

Lemma successful_run_conserves_rows_witness :
  let self := sample_ingestion DataIngestionConfig_new five_rows in
  let out := initiate_data_ingestion self sample_world in
  exists train test,
    files (fs (snd out)) !! "artifacts/data_ingestion/ingested/train.parquet"
    = Some {| file_format := Parquet; file_data := train |} /\
    files (fs (snd out)) !! "artifacts/data_ingestion/ingested/test.parquet"
    = Some {| file_format := Parquet; file_data := test |} /\
    (len train + len test)%nat = 5%nat.
Proof.
  intros self out.
  destruct (successful_run_conserves_rows self sample_world sample_world (snd out)
              five_rows (without ["case_id"; "requires_job_training"] five_rows)
              {| raw_file_path := feature_store_file_path (config self);
                 train_file_path := training_file_path (config self);
                 test_file_path := testing_file_path (config self) |}
              toy_permutation_range eq_refl eq_refl)
    as (train & test & _ & Htr & Hte & _ & Hsum & _);
    [vm_compute; reflexivity | reflexivity
    | vm_compute; discriminate | vm_compute; discriminate | vm_compute; discriminate |].
  exists train, test. repeat split; assumption.
Defined.

(** ** More on the savers *)

Section SaverComposition.
Context `{NumpyRandom}.




End SaverComposition.



(** ** Connectors after the first connection *)

Module ConnectorMore.
Import Connector.

Section Later.
Context `{Pymongo}.


End Later.


End ConnectorMore.

(** ** The extractor *)

Module ExtractorFacts.
Import Connector Extractor.

Lemma add_keys_incl (cols : list string) (d : Document) (c : string) :
  In c cols -> In c (add_keys cols d).
Proof.
  revert cols. induction d as [|[k v] d IH]; intros cols Hc; cbn [add_keys]; [exact Hc|].
  apply IH. destruct (mem_label k cols); [exact Hc|]. apply in_or_app. auto.
Qed.

Lemma add_keys_covers (cols : list string) (d : Document) (k : string) (v : Value) :
  In (k, v) d -> In k (add_keys cols d).
Proof.
  revert cols. induction d as [|[k' v'] d IH]; intros cols; cbn [add_keys In]; [tauto|].
  intros [[= -> ->]|Hin]; [|apply IH; exact Hin].
  apply add_keys_incl. destruct (mem_label k cols) eqn:Hm.
  - apply mem_label_In. exact Hm.
  - apply in_or_app. right. left. reflexivity.
Qed.

Lemma add_keys_NoDup (cols : list string) (d : Document) :
  NoDup cols -> NoDup (add_keys cols d).
Proof.
  revert cols. induction d as [|[k v] d IH]; intros cols Hn; cbn [add_keys]; [exact Hn|].
  apply IH. destruct (mem_label k cols) eqn:Hm; [exact Hn|].
  apply mem_label_not_In in Hm.
  apply NoDup_app. split; [exact Hn|]. split; [|apply NoDup_singleton].
  intros x Hx Hx'. apply list_elem_of_In in Hx, Hx'. cbn in Hx'.
  destruct Hx' as [<-|[]]. exact (Hm Hx).
Qed.

Lemma fold_add_keys_incl (records : list Document) (cols : list string) (c : string) :
  In c cols -> In c (fold_left add_keys records cols).
Proof.
  revert cols. induction records as [|d records IH]; intros cols Hc; cbn [fold_left];
    [exact Hc|]. apply IH, add_keys_incl, Hc.
Qed.

Lemma fold_add_keys_covers (records : list Document) (cols : list string)
    (d : Document) (k : string) (v : Value) :
  In d records -> In (k, v) d -> In k (fold_left add_keys records cols).
Proof.
  revert cols. induction records as [|d' records IH]; intros cols; cbn [fold_left In];
    [tauto|].
  intros [->|Hin] Hk; [|apply IH; assumption].
  apply fold_add_keys_incl. apply (add_keys_covers _ _ _ v). exact Hk.
Qed.

Lemma fold_add_keys_NoDup (records : list Document) (cols : list string) :
  NoDup cols -> NoDup (fold_left add_keys records cols).
Proof.
  revert cols. induction records as [|d records IH]; intros cols Hn; cbn [fold_left];
    [exact Hn|]. apply IH, add_keys_NoDup, Hn.
Qed.

Lemma cell_row_of (cols : list string) (d : Document) (c : string) :
  In c cols -> cell (row_of cols d) c = Some (default VNaN (cell d c)).
Proof.
  unfold row_of. induction cols as [|c' cols IH]; cbn [List.map cell In]; [tauto|].
  intros Hin. destruct (String.eqb_spec c' c) as [->|Hne]; [reflexivity|].
  destruct Hin as [E|Hin]; [congruence|]. apply IH. exact Hin.
Qed.

Lemma row_of_labels (cols : list string) (d : Document) :
  List.map fst (row_of cols d) = cols.
Proof.
  unfold row_of. rewrite List.map_map. cbn [fst]. apply List.map_id.
Qed.

(** X13: a frame built from records has one row per record, in the order
    of the records, and one column for every field that occurs, none
    twice; every row carries exactly the labels of the frame, with the
    value of its record under each, or [NaN] where the record lacks the
    field.  No records give an empty frame. *)
Theorem frame_of_records_shape (records : list Document) :
  len (DataFrame_of_records records) = length records /\
  NoDup (columns (DataFrame_of_records records)) /\
  (forall d k v, In d records -> In (k, v) d ->
                 In k (columns (DataFrame_of_records records))) /\
  (forall i, (i < length records)%nat ->
     List.map fst (nth i (rows (DataFrame_of_records records)) [])
     = columns (DataFrame_of_records records) /\
     forall c, In c (columns (DataFrame_of_records records)) ->
       cell (nth i (rows (DataFrame_of_records records)) []) c
       = Some (default VNaN (cell (nth i records []) c))) /\
  (records = [] -> empty (DataFrame_of_records records) = true).
Proof.
  unfold DataFrame_of_records, len. cbn [columns rows].
  split; [apply length_map|].
  split; [apply fold_add_keys_NoDup; constructor|].
  split; [intros d k v Hd Hk; exact (fold_add_keys_covers _ _ _ _ _ Hd Hk)|].
  split; [|intros ->; reflexivity].
  intros i Hi.
  assert (Hrow : nth i (List.map (row_of (keys_of records)) records) []
                 = row_of (keys_of records) (nth i records [])).
  { rewrite (nth_indep _ [] (row_of (keys_of records) [])) by (rewrite length_map; exact Hi).
    apply map_nth. }
  rewrite Hrow. split; [apply row_of_labels|].
  intros c Hc. apply cell_row_of. exact Hc.
Qed.

Section ExportFacts.
Context `{Pymongo} `{MongoServer}.

(** X12: the extractor reads through the shared connection.  From a
    consistent process, [export_as_dataframe] leaves the process
    consistent and an already shared client in place; when it returns a
    frame, the frame is built from the records the server finds in the
    named collection of the requested (or default) database on the shared
    client; when it raises, it raises [USvisaException]. *)
Theorem export_reads_through_shared_client
    (p p' : Process) (self : nat) (o : MongoDBClient)
    (collection_name : string) (database_name : option string)
    (r : Result DataFrame) :
  consistent p ->
  objects p !! self = Some o ->
  export_as_dataframe self o collection_name database_name p = (r, p') ->
  consistent p' /\
  (forall c, _shared_client p = Some c -> _shared_client p' = Some c) /\
  (length (established p') <= 1)%nat /\
  match r with
  | inr df =>
      exists c records,
        _shared_client p' = Some c /\
        find {| db_client := c; db_name := name_or_default database_name o |}
          collection_name = inr records /\
        df = DataFrame_of_records records
  | inl e => exists cause, e = USvisaException cause
  end.
Proof.
  intros Hc Hself. unfold export_as_dataframe.
  destruct (get_database self o database_name p) as [[e|db] p1] eqn:Hget.
  - intros [= <- <-].
    destruct (ConnectorFacts.get_database_consistent self o database_name p p1 _
                Hc Hself Hget) as (Hc1 & Hm & _).
    split; [exact Hc1|]. split; [exact Hm|]. split; [|eauto].
    destruct Hc1 as [-> _]. destruct (_shared_client p1); cbn; lia.
  - destruct (ConnectorFacts.get_database_consistent self o database_name p p1 _
                Hc Hself Hget) as (Hc1 & Hm & Hd).
    assert (Hdb : db_name db = name_or_default database_name o).
    { revert Hget. unfold get_database.
      destruct (_client o); [intros [= <- _]; reflexivity|].
      destruct (connect self o p) as [[e|[]] p2]; [discriminate|].
      destruct (objects p2 !! self) as [[cfg [c|]]|]; try discriminate.
      intros [= <- _]. reflexivity. }
    assert (Hlen : (length (established p1) <= 1)%nat).
    { destruct Hc1 as [-> _]. destruct (_shared_client p1); cbn; lia. }
    destruct (find db collection_name) as [e|records] eqn:Hfind; intros [= <- <-].
    + split; [exact Hc1|]. split; [exact Hm|]. split; [exact Hlen|]. eauto.
    + split; [exact Hc1|]. split; [exact Hm|]. split; [exact Hlen|].
      exists (db_client db), records. split; [apply Hd; reflexivity|].
      split; [|reflexivity]. rewrite <- Hdb. destruct db. exact Hfind.
Qed.

End ExportFacts.

Lemma frame_of_records_shape_witness :
  columns (DataFrame_of_records visa_documents)
  = ["_id"; "case_id"; "continent"; "case_status"] /\
  cell (nth 1 (rows (DataFrame_of_records visa_documents)) []) "continent" = Some VNaN.
Proof.
  destruct (frame_of_records_shape visa_documents) as (_ & _ & _ & Hrows & _).
  destruct (Hrows 1%nat ltac:(cbn; lia)) as [_ Hcell].
  split; [reflexivity|]. rewrite Hcell; [reflexivity|].
  cbn. auto.
Defined.

Lemma export_reads_through_shared_client_witness :
  let p := snd (@run nonempty_uri two_connectors start) in
  exists p',
    @export_as_dataframe nonempty_uri sample_server 1
      {| _config := {| uri := "mongodb://second"; default_db := "visa" |};
         _client := None |} "data" (Some "insurance") p
    = (inr (DataFrame_of_records visa_documents), p') /\
    (length (established p') <= 1)%nat.
Proof.
  intros p.
  assert (Hc : consistent p).
  { destruct (@run nonempty_uri two_connectors start) as [outs p0] eqn:Hrun.
    apply (ConnectorFacts.run_consistent _ _ _ _ ConnectorFacts.start_consistent Hrun). }
  destruct (@export_reads_through_shared_client nonempty_uri sample_server p
              (snd (@export_as_dataframe nonempty_uri sample_server 1
                      {| _config := {| uri := "mongodb://second"; default_db := "visa" |};
                         _client := None |} "data" (Some "insurance") p))
              1 {| _config := {| uri := "mongodb://second"; default_db := "visa" |};
                   _client := None |} "data" (Some "insurance")
              (inr (DataFrame_of_records visa_documents)) Hc)
    as (_ & _ & Hlen & _);
    [vm_compute; reflexivity | vm_compute; reflexivity |].
  eexists. split; [vm_compute; reflexivity | exact Hlen].
Defined.

End ExtractorFacts.

(** ** The file helpers *)

Module UtilsFacts.
Import Utils.

Section Disk.
Context `{Codecs}.

Local Abbreviation save_body dumped file_path :=
  (u_bind (os_makedirs (dirname file_path)) (fun _ => write_with dumped file_path)).

Local Abbreviation saved dumped file_path d :=
  {| ddirs := list_to_set (ancestors (String.length (dirname file_path))
                             (dirname file_path)) ∪ ddirs d;
     dfiles := <[file_path%string := fst dumped]> (dfiles d) |}.

Lemma forallb_agree {A : Type} (f g : A -> bool) (l : list A) :
  (forall a, In a l -> f a = g a) -> forallb f l = forallb g l.
Proof.
  induction l as [|a l IH]; cbn [forallb In]; [reflexivity|].
  intros Hfg. rewrite (Hfg a), IH; auto.
Qed.

Lemma isfile_shape (d : Disk) (p : string) :
  isfile (shape d) p = bool_decide (is_Some (dfiles d !! p)).
Proof.
  unfold isfile, shape. cbn [files]. apply bool_decide_ext.
  rewrite lookup_fmap. apply fmap_is_Some.
Qed.

Lemma shape_after_makedirs (name : string) (d : Disk) (fs1 : FileSystem) :
  makedirs name (shape d) = inr fs1 ->
  shape {| ddirs := dirs fs1; dfiles := dfiles d |} = fs1.
Proof.
  intros Hmk. apply makedirs_inr in Hmk as (Hf & _).
  destruct fs1 as [ds fs]. cbn in *. unfold shape. cbn. rewrite Hf. reflexivity.
Qed.

(** Where the path is writable and has a directory part, the directories
    are made and the file holds what the writer wrote. *)
Lemma save_body_ok (dumped : bytes * option Exception) (file_path : string) (d : Disk) :
  writable (shape d) file_path = true ->
  dirname file_path <> "" ->
  save_body dumped file_path d
  = (match snd dumped with None => inr tt | Some e => inl e end,
     saved dumped file_path d).
Proof.
  intros Hw Hne.
  assert (Hc : creatable (shape d) (dirname file_path) = true).
  { unfold writable in Hw. apply andb_prop in Hw as [_ Hc]. exact Hc. }
  destruct (makedirs_creatable _ _ Hne Hc) as [fs1 Hmk].
  destruct (write_file_writable file_path placeholder (shape d) fs1 Hw (or_intror Hmk))
    as [fs2 Hwr].
  unfold u_bind, os_makedirs. rewrite Hmk.
  unfold write_with. rewrite (shape_after_makedirs _ _ _ Hmk), Hwr.
  apply makedirs_inr in Hmk as (_ & Hd & _). cbn [ddirs dfiles].
  rewrite Hd. destruct (snd dumped); reflexivity.
Qed.

(** A save that returned normally was one to a writable path with a
    directory part, by a writer that did not raise. *)
Lemma save_body_inr (dumped : bytes * option Exception) (file_path : string)
    (d d' : Disk) :
  save_body dumped file_path d = (inr tt, d') ->
  writable (shape d) file_path = true /\ dirname file_path <> "" /\ snd dumped = None.
Proof.
  unfold u_bind, os_makedirs.
  destruct (makedirs (dirname file_path) (shape d)) as [e|fs1] eqn:Hmk; [discriminate|].
  unfold write_with. rewrite (shape_after_makedirs _ _ _ Hmk).
  destruct (write_file file_path placeholder fs1) as [e|fs2] eqn:Hwr; [discriminate|].
  destruct (snd dumped); [discriminate|]. intros _.
  assert (Hne : dirname file_path <> "").
  { intros E. rewrite E in Hmk. discriminate. }
  assert (Hc : creatable (shape d) (dirname file_path) = true).
  { apply creatable_find_none. revert Hmk. unfold makedirs.
    destruct (String.eqb (dirname file_path) ""); [discriminate|].
    destruct (List.find _ _); [discriminate | reflexivity]. }
  revert Hwr. unfold write_file.
  destruct (String.eqb_spec (basename file_path) "") as [|Hb]; [discriminate|].
  destruct (isdir fs1 file_path) eqn:Hd; [discriminate|]. intros _.
  rewrite (isdir_after_makedirs file_path _ _ _ Hmk Hb) in Hd.
  split; [|auto]. unfold writable. rewrite Hd, Hc.
  apply String.eqb_neq in Hb. rewrite Hb. reflexivity.
Qed.


(** Removing the file at a path keeps the path writable. *)
Lemma writable_without (file_path : string) (d : Disk) :
  writable (shape d) file_path
  = writable (shape {| ddirs := ddirs d; dfiles := delete file_path (dfiles d) |}) file_path.
Proof.
  unfold writable.
  destruct (String.eqb_spec (basename file_path) "") as [|Hb]; [reflexivity|].
  cbn [negb andb]. f_equal. unfold creatable.
  apply forallb_agree. intros a Ha. rewrite !isfile_shape. cbn [dfiles]. f_equal.
  apply bool_decide_ext. rewrite lookup_delete_ne; [reflexivity|].
  intros ->. exact (not_own_ancestor _ _ Hb Ha).
Qed.

(** After a save that returned, the path can be read back. *)
Lemma read_back {A : Type} (load : bytes -> Result A) (dumped : bytes * option Exception)
    (file_path : string) (d : Disk) :
  writable (shape d) file_path = true ->
  read_with load file_path (saved dumped file_path d)
  = (load (fst dumped), saved dumped file_path d).
Proof.
  intros Hw. unfold read_with.
  assert (Hd : isdir (shape (saved dumped file_path d)) file_path = false).
  { unfold writable in Hw. apply andb_prop in Hw as [Hw _]. apply andb_prop in Hw as [Hb Hd].
    apply negb_true_iff in Hd.
    assert (Hbn : basename file_path <> "") by (apply String.eqb_neq, negb_true_iff, Hb).
    unfold isdir in *. cbn [shape dirs ddirs].
    apply orb_false_iff in Hd as [Hr Hin]. rewrite Hr. cbn [orb].
    apply bool_decide_eq_false in Hin. apply bool_decide_eq_false.
    rewrite elem_of_union, elem_of_list_to_set, list_elem_of_In.
    intros [Ha|Hi]; [exact (not_own_ancestor _ _ Hbn Ha) | exact (Hin Hi)]. }
  rewrite Hd. cbn [dfiles]. rewrite lookup_insert_eq. reflexivity.
Qed.

(** [write_yaml_file] on a writable path with a directory part, for
    either value of [replace]. *)
Lemma write_yaml_file_ok (file_path : string) (content : object) (replace : bool)
    (d : Disk) :
  writable (shape d) file_path = true ->
  dirname file_path <> "" ->
  write_yaml_file file_path content replace d
  = (match snd (yaml_dump content) with
     | None => inr tt
     | Some e => inl (USvisaException e)
     end, saved (yaml_dump content) file_path d).
Proof.
  intros Hw Hne. unfold write_yaml_file, u_try. unfold u_bind at 1.
  assert (Hdir : isdir (shape d) file_path = false).
  { unfold writable in Hw. apply andb_prop in Hw as [Hw _]. apply andb_prop in Hw as [_ Hd].
    apply negb_true_iff in Hd. exact Hd. }
  destruct (replace && exists_ file_path d) eqn:Hr.
  - apply andb_prop in Hr as [_ Hex]. unfold exists_ in Hex. rewrite Hdir, orb_false_r in Hex.
    unfold os_remove. rewrite Hdir, Hex.
    rewrite (writable_without file_path d) in Hw.
    rewrite (save_body_ok _ _ _ Hw Hne). cbn [ddirs dfiles].
    rewrite insert_delete_eq.
    destruct (snd (yaml_dump content)); reflexivity.
  - unfold u_ret. rewrite (save_body_ok _ _ _ Hw Hne).
    destruct (snd (yaml_dump content)); reflexivity.
Qed.

Lemma write_yaml_file_inr (file_path : string) (content : object) (replace : bool)
    (d d' : Disk) :
  write_yaml_file file_path content replace d = (inr tt, d') ->
  writable (shape d) file_path = true /\ dirname file_path <> "" /\
  snd (yaml_dump content) = None.
Proof.
  unfold write_yaml_file, u_try. unfold u_bind at 1.
  destruct (replace && exists_ file_path d) eqn:Hr.
  - unfold os_remove.
    destruct (isdir (shape d) file_path); [discriminate|].
    destruct (isfile (shape d) file_path); [|discriminate].
    destruct (save_body (yaml_dump content) file_path _) as [[e|[]] d1] eqn:Hs;
      [discriminate|].
    intros _. apply save_body_inr in Hs as (Hw & Hne & Hnone).
    rewrite <- (writable_without file_path d) in Hw. auto.
  - unfold u_ret.
    destruct (save_body (yaml_dump content) file_path d) as [[e|[]] d1] eqn:Hs;
      [discriminate|].
    intros _. apply save_body_inr in Hs. exact Hs.
Qed.


(** X15: what [write_yaml_file] has written, [read_yaml_file] reads
    back.  On a writable path with a directory part, for content that the
    YAML codec writes and reads back unchanged, the write returns
    normally and a read of the same path then returns the content if it is
    a mapping, and raises [USvisaException] for a [ValueError] if it is
    not; the read changes nothing. *)
Theorem yaml_round_trip
    (file_path : string) (content : object) (replace : bool) (b : bytes) (d : Disk) :
  writable (shape d) file_path = true ->
  dirname file_path <> "" ->
  yaml_dump content = (b, None) ->
  yaml_safe_load b = inr content ->
  exists d',
    write_yaml_file file_path content replace d = (inr tt, d') /\
    read_yaml_file file_path d'
    = (if isinstance content dict_ then inr content
       else inl (USvisaException
                   (ValueError ("YAML file " ++ file_path
                                ++ " must contain a mapping at the root."))), d').
Proof.
  intros Hw Hne Hdump Hload.
  exists (saved (yaml_dump content) file_path d).
  rewrite (write_yaml_file_ok _ _ _ _ Hw Hne), Hdump. cbn [snd]. split; [reflexivity|].
  unfold read_yaml_file, u_try, u_bind.
  pose proof (read_back yaml_safe_load (b, None) file_path d Hw) as Hread.
  cbn [fst] in *. rewrite Hread, Hload.
  destruct (isinstance content dict_); reflexivity.
Qed.

(** X16: the [replace] flag of [write_yaml_file] makes no difference to
    a write that returns normally: it returns normally with one value of
    the flag exactly when it does with the other, and leaves the same
    disk, an existing file being overwritten either way. *)
Theorem replace_flag_is_immaterial
    (file_path : string) (content : object) (d d' : Disk) :
  write_yaml_file file_path content true d = (inr tt, d') <->
  write_yaml_file file_path content false d = (inr tt, d').
Proof.
  split; intros Hrun;
    pose proof (write_yaml_file_inr _ _ _ _ _ Hrun) as (Hw & Hne & Hnone);
    rewrite (write_yaml_file_ok file_path content true d Hw Hne) in *;
    rewrite (write_yaml_file_ok file_path content false d Hw Hne) in *;
    exact Hrun.
Qed.





End Disk.


Lemma yaml_round_trip_witness :
  exists d',
    @write_yaml_file ToyCodecs "config/schema.yaml" schema_object false empty_disk
    = (inr tt, d') /\
    @read_yaml_file ToyCodecs "config/schema.yaml" d' = (inr schema_object, d').
Proof.
  destruct (@yaml_round_trip ToyCodecs "config/schema.yaml" schema_object false
              (AsYaml schema_object) empty_disk)
    as (d' & Hw & Hr);
    [vm_compute; reflexivity | discriminate | reflexivity | reflexivity |].
  exists d'. split; [exact Hw | exact Hr].
Defined.



End UtilsFacts.

(** ** The pipeline wrapper *)

Section PipelineFacts.
Context `{NumpyRandom}.


End PipelineFacts.


Lemma default_fraction_needs_two_rows_witness :
  succeeded (fst (train_test_split five_rows DATA_INGESTION_TRAIN_TEST_SPLIT_RATIO
                    (Some 42%Z) sample_world)) = true.
Proof.
  apply (default_fraction_needs_two_rows five_rows (Some 42%Z) sample_world).
  cbn. lia.
Defined.

Lemma replace_flag_is_immaterial_witness :
  let d' := snd (@Utils.write_yaml_file Utils.ToyCodecs "config/schema.yaml"
                   Utils.schema_object true Utils.empty_disk) in
  @Utils.write_yaml_file Utils.ToyCodecs "config/schema.yaml"
    Utils.schema_object false Utils.empty_disk = (inr tt, d').
Proof.
  intros d'.
  apply (proj1 (@UtilsFacts.replace_flag_is_immaterial Utils.ToyCodecs "config/schema.yaml"
                  Utils.schema_object Utils.empty_disk d')).
  vm_compute. reflexivity.
Defined.
